(** * doclingo: PDF translation pipeline (src/app.py)

    A shallow embedding of the Flask handler [index], of the two PDF helpers
    [extract_text_with_positions] and [rebuild_pdf_with_translation], and of
    the line alignment that [index] performs inline, followed by the
    properties of the pipeline.

    Python [str] values are sequences of Unicode code points; they are
    modelled as lists of code points ([N]).  The PDF library (PyMuPDF), the
    JSON codec, werkzeug's [secure_filename] and the remote model are
    external collaborators: what they compute is a parameter of the
    development (class [Collaborators]); how the code calls them, in which
    order, and what it does with their results and failures is modelled
    from the source. *)

From Stdlib Require Import Strings.Byte Strings.Ascii Strings.String.
From stdpp Require Import gmap list strings.

Set Default Proof Using "Type".
Set Warnings "-register-all".

(** ** Python strings *)

Abbreviation pystr := (list N).

(** A literal of the source, character by character. *)
Definition lit (s : string) : pystr :=
  (λ a, Ascii.N_of_ascii a) <$> String.list_ascii_of_string s.

Definition nl : N := 10%N.
Definition dq : pystr := [34%N].

(** [str.isspace] on one code point, the table of CPython's
    [_PyUnicode_IsWhitespace]: U+0009..U+000D, U+001C..U+0020, U+0085,
    U+00A0, U+1680, U+2000..U+200A, U+2028, U+2029, U+202F, U+205F,
    U+3000. *)
Definition isspace (c : N) : bool :=
  ((9 <=? c) && (c <=? 13) || (28 <=? c) && (c <=? 32)
   || (c =? 133) || (c =? 160) || (c =? 5760)
   || (8192 <=? c) && (c <=? 8202)
   || (c =? 8232) || (c =? 8233) || (c =? 8239) || (c =? 8287)
   || (c =? 12288))%N.

Fixpoint lstrip (s : pystr) : pystr :=
  match s with
  | [] => []
  | c :: s' => if isspace c then lstrip s' else s
  end.

Definition rstrip (s : pystr) : pystr := reverse (lstrip (reverse s)).

(** [s.strip()] with no argument. *)
Definition strip (s : pystr) : pystr := rstrip (lstrip s).

(** Truth value of a string in a condition: non-empty. *)
Definition truthy (s : pystr) : bool :=
  match s with [] => false | _ :: _ => true end.

(** [s.split("\n")]: never empty, the empty string gives [[""]]. *)
Fixpoint split_nl (s : pystr) : list pystr :=
  match s with
  | [] => [[]]
  | c :: s' =>
      if (c =? nl)%N then [] :: split_nl s'
      else match split_nl s' with
           | l :: ls => (c :: l) :: ls
           | [] => [[c]]
           end
  end.

(** ["\n".join(parts)]. *)
Fixpoint join_nl (parts : list pystr) : pystr :=
  match parts with
  | [] => []
  | [p] => p
  | p :: ps => p ++ nl :: join_nl ps
  end.

(** ** Errors

    The exceptions that can leave the handler, named as Python raises them.
    None is caught anywhere in src/app.py. *)
Inductive exn :=
| BadRequestKeyError      (* request.files["file"] without that part *)
| IsADirectoryError       (* file.save on the temporary directory itself *)
| FileNotFoundError       (* opening a path that holds no file *)
| FileDataError           (* fitz.open on content it cannot parse *)
| GenerationError         (* anything raised inside call_gemini *)
| JSONDecodeError         (* json.loads on text that is not JSON *)
| UnicodeEncodeError      (* json.dump into the UTF-8 file *)
| IndexError              (* a list index out of range *)
| SaveError.              (* doc.save refusing to write *)

(** Pure fallible computations. *)
Abbreviation Err := (sum exn).

Definition ebind {A B} (c : Err A) (k : A → Err B) : Err B :=
  match c with inl e => inl e | inr a => k a end.

Notation "'try!' x ':=' c 'in' k" := (ebind c (λ x, k))
  (at level 10, x name, c at level 100, k at level 200).

(** [l[i]] for a non-negative index. *)
Definition getitem {A} (l : list A) (i : nat) : Err A :=
  match l !! i with Some x => inr x | None => inl IndexError end.

(** ** Prompt templates, lines 29-74

    The two f-strings, line by line; [dq] stands for the double quote. *)

Definition prompt_json (text target_language : pystr) : pystr :=
  join_nl
    [ [];
      lit "Please analyze the following document text.";
      [];
      lit "Instructions:";
      lit "1. Detect the original language automatically.";
      lit "2. Translate all text into " ++ target_language ++ lit ".";
      lit "3. Provide the result in this exact JSON format (valid JSON, no extra text outside the JSON):";
      [];
      lit "{";
      lit "  " ++ dq ++ lit "doc_type" ++ dq ++ lit ": " ++ dq ++ lit "auto-detected document type (e.g., invoice, contract, letter, etc.)" ++ dq ++ lit ",";
      lit "  " ++ dq ++ lit "metadata" ++ dq ++ lit ": {";
      lit "    " ++ dq ++ lit "detected_language" ++ dq ++ lit ": " ++ dq ++ lit "ISO language code (e.g., 'ja', 'zh', 'ko', 'en')" ++ dq ++ lit ",";
      lit "    " ++ dq ++ lit "confidence" ++ dq ++ lit ": float_between_0_and_1";
      lit "  },";
      lit "  " ++ dq ++ lit "entities" ++ dq ++ lit ": {";
      lit "    // Extract all identifiable information as key-value pairs";
      lit "    // Use descriptive keys written in " ++ target_language;
      lit "  },";
      lit "  " ++ dq ++ lit "full_translated_text" ++ dq ++ lit ": " ++ dq ++ lit "Full translation of the document in " ++ target_language ++ dq;
      lit "}";
      [];
      lit "4. Preserve numbers, dates, and currency formats exactly as in the original.";
      lit "5. If any content is unreadable, replace it with " ++ dq ++ lit "[unreadable]" ++ dq ++ lit ".";
      lit "6. Include all readable information from the document without summarizing or omitting.";
      [];
      lit "Document text:";
      text;
      [] ].

Definition prompt_translate (text target_language : pystr) : pystr :=
  join_nl
    [ [];
      lit "You are a professional document translator.";
      [];
      lit "Instructions:";
      lit "1. Detect the original language automatically.";
      lit "2. Translate the entire document into " ++ target_language ++ lit ".";
      lit "3. Maintain the original document's formatting exactly:";
      lit "   - Keep the same page structure, fonts, sizes, and spacing.";
      lit "   - Preserve images, tables, charts, and any non-text elements.";
      lit "   - Keep numbers, dates, and currency values exactly as in the original.";
      lit "4. Only translate text; do not alter non-text elements.";
      [];
      lit "Document text:";
      text;
      [] ].

(** ** JSON values, as [json.load] and [json.loads] return them *)

Inductive json :=
| JNull
| JBool (b : bool)
| JNumber (literal : pystr)
| JString (s : pystr)
| JArray (elements : list json)
| JObject (members : list (pystr * json)).

(** Whether the identifier [tl] occurs in the language table loaded at
    lines 23-24: as a string element of an array, or as a key or a string
    value of an object.  languages.json is not among the sources, so both
    shapes are covered. *)
Definition is_string (tl : pystr) (j : json) : bool :=
  match j with JString s => bool_decide (s = tl) | _ => false end.

Definition listed (LANGUAGES : json) (tl : pystr) : bool :=
  match LANGUAGES with
  | JArray elements => existsb (is_string tl) elements
  | JObject members =>
      existsb (λ m, bool_decide (m.1 = tl) || is_string tl m.2) members
  | _ => false
  end.

(** ** Start-up checks on the API key

    [os.getenv] gives a string or [None].  src/app.py (lines 12-16) refuses
    a key that is falsy, src/config/settings.py (lines 4-8) a key that is
    [None]. *)
Inductive startup :=
| Configured (key : pystr)
| ValueError (message : pystr).

Definition app_startup (GEMINI_API_KEY : option pystr) : startup :=
  match GEMINI_API_KEY with
  | Some key =>
      if truthy key then Configured key
      else ValueError
             (lit "GEMINI_API_KEY not found in environment variables")
  | None =>
      ValueError (lit "GEMINI_API_KEY not found in environment variables")
  end.

Definition settings_startup (GEMINI_API_KEY : option pystr) : startup :=
  match GEMINI_API_KEY with
  | None => ValueError (lit "GEMINI_API_KEY environment variable not set")
  | Some key => Configured key
  end.

(** A JSON text (RFC 8259) is one value between white space (space, tab,
    line feed, carriage return), and a value starts with an opening brace
    or bracket, a double quote, a minus sign, a digit, or the first letter
    of [true], [false], [null].  A text that fails this test is not valid
    JSON. *)
Definition json_ws (c : N) : bool :=
  ((c =? 32) || (c =? 9) || (c =? 10) || (c =? 13))%N.

Definition json_value_start (c : N) : bool :=
  ((c =? 123) || (c =? 91) || (c =? 34) || (c =? 45)
   || (48 <=? c) && (c <=? 57)
   || (c =? 116) || (c =? 102) || (c =? 110))%N.

Fixpoint starts_like_json (s : pystr) : bool :=
  match s with
  | [] => false
  | c :: s' => if json_ws c then starts_like_json s' else json_value_start c
  end.



Section Pipeline.

Context {coord : Type}.

(** ** Data model *)

Definition bbox_t : Type := coord * coord * coord * coord.

(** The dictionaries [{"bbox": ..., "text": ...}]. *)
Record item := Item { bbox : bbox_t; text : pystr }.

(** One tuple of [page.get_text("blocks")]:
    [(x0, y0, x1, y1, text, block_no, block_type)]. *)
Record raw_block := RawBlock {
  x0 : coord; y0 : coord; x1 : coord; y1 : coord;
  block_text : pystr; block_no : nat; block_type : nat }.

(** What the code asks a page to do, in the order it asks. *)
Inductive page_op :=
| add_redact_annot (quad : bbox_t) (fill : N * N * N)
| apply_redactions
| insert_text (point : coord * coord) (txt : pystr)
              (fontname : pystr) (fontsize : N) (color : N * N * N).

(** A page of an opened document: its rectangle, what [get_text("blocks")]
    and [get_text()] report for it as opened, and the operations applied to
    it since.  The three operations change what is drawn on the page, not
    its rectangle. *)
Record pdf_page := PdfPage {
  rect : bbox_t;
  get_text_blocks : list raw_block;
  get_text : pystr;
  ops : list page_op }.

Abbreviation document := (list pdf_page).

Definition page_do (op : page_op) (p : pdf_page) : pdf_page :=
  PdfPage (rect p) (get_text_blocks p) (get_text p) (ops p ++ [op]).

(** ** Text Extractor: [extract_text_with_positions], lines 89-98 *)

(** The inner loop, lines 93-96. *)
Fixpoint extract_blocks (blocks : list raw_block) (page_items : list item)
  : list item :=
  match blocks with
  | [] => page_items
  | b :: rest =>
      let '(RawBlock x0 y0 x1 y1 text _ _) := b in
      if truthy (strip text)
      then extract_blocks rest (page_items ++ [Item (x0, y0, x1, y1) text])
      else extract_blocks rest page_items
  end.

(** The outer loop, lines 90-97. *)
Fixpoint extract_pages (doc : document) (pages_data : list (list item))
  : list (list item) :=
  match doc with
  | [] => pages_data
  | page :: rest =>
      let blocks := get_text_blocks page in
      let page_items := extract_blocks blocks [] in
      extract_pages rest (pages_data ++ [page_items])
  end.

(** The dictionary appended at line 96 for a block. *)
Definition block_item (b : raw_block) : item :=
  Item (x0 b, y0 b, x1 b, y1 b) (block_text b).

(** ** Line Aligner: lines 154-160 (and 179-185) of [index] *)

Fixpoint align_loop (split_translations : list pystr) (i : nat)
    (page_items translated_items : list item) : Err (list item) :=
  match page_items with
  | [] => inr translated_items
  | item :: rest =>
      try! t := (if bool_decide (i < length split_translations)
                 then getitem split_translations i
                 else inr (text item)) in
      align_loop split_translations (S i) rest
        (translated_items ++ [Item (bbox item) t])
  end.

Definition align (page_items : list item) (translated_text : pystr)
  : Err (list item) :=
  let split_translations := split_nl translated_text in
  align_loop split_translations 0 page_items [].

(** The operations lines 104-117 ask of a page, as one list. *)
Definition redactions_of (page_items : list item) : list page_op :=
  (λ it, add_redact_annot (bbox it) (1, 1, 1)%N) <$> page_items.

Definition insertions_of (page_items : list item) : list page_op :=
  (λ it, insert_text ((bbox it).1.1.1, (bbox it).1.1.2) (text it)
                     (lit "helv") 10%N (0, 0, 0)%N) <$> page_items.

(** What lines 104-117 ask of a page with the blocks [page_items]. *)
Definition page_script (page_items : list item) : list page_op :=
  redactions_of page_items ++ apply_redactions :: insertions_of page_items.

Definition is_redaction (op : page_op) : bool :=
  match op with
  | add_redact_annot _ _ | apply_redactions => true
  | insert_text _ _ _ _ _ => false
  end.

Definition is_insertion (op : page_op) : bool :=
  match op with
  | insert_text _ _ _ _ _ => true
  | _ => false
  end.

(** ** The request's world *)

(** What a file of the temporary directory holds. *)
Inductive file :=
| Upload (data : list byte)
| JsonFile (content : pystr)
| PdfFile (doc : document)
| ZipFile (members : list (pystr * file)).

(** The external collaborators.  [None] stands for a raised exception,
    [false] for a refusal.
    - [fitz_parse path f]: the document [fitz.open(path)] yields when the
      file at [path] holds [f];
    - [fitz_save_ok name out doc]: whether [doc.save(out)] writes, for a
      document opened from [name];
    - [generate_content n prompt]: the text of the remote model's answer to
      the [n]-th call of the request. *)
Class Collaborators := {
  secure_filename : pystr → pystr;
  fitz_parse : pystr → file → option document;
  fitz_save_ok : pystr → pystr → document → bool;
  json_loads : pystr → option json;
  json_dump : json → option pystr;
  generate_content : nat → pystr → option pystr }.

Context `{!Collaborators}.

(** The temporary directory of the request (file name to content; every
    path of the code is [os.path.join(tmpdir, name)]) and the prompts sent
    to the remote model so far. *)
Record state := State {
  tmpdir : gmap pystr file;
  prompts : list pystr }.

(** Stateful fallible computations: the state survives an exception. *)
Definition M (A : Type) : Type := state → state * Err A.

Definition mret {A} (a : A) : M A := λ s, (s, inr a).
Definition raise {A} (e : exn) : M A := λ s, (s, inl e).
Definition mbind {A B} (c : M A) (k : A → M B) : M B :=
  λ s, match c s with
       | (s', inl e) => (s', inl e)
       | (s', inr a) => k a s'
       end.
Definition lift {A} (c : Err A) : M A := λ s, (s, c).
Definition or_raise {A} (e : exn) (o : option A) : M A :=
  match o with Some a => mret a | None => raise e end.

Notation "'let!' x ':=' c 'in' k" := (mbind c (λ x, k))
  (at level 10, x name, c at level 100, k at level 200).
Notation "'do!' c 'in' k" := (mbind c (λ _, k))
  (at level 10, c at level 100, k at level 200).

Definition write_file (path : pystr) (f : file) : M unit :=
  λ s, (State (<[path := f]> (tmpdir s)) (prompts s), inr tt).

Definition read_file (path : pystr) : M file :=
  λ s, (s, match tmpdir s !! path with
           | Some f => inr f
           | None => inl FileNotFoundError
           end).

(** [fitz.open(path)]. *)
Definition fitz_open (path : pystr) : M document :=
  let! f := read_file path in
  or_raise FileDataError (fitz_parse path f).

(** [file.save(path)]: with an empty file name the path is the temporary
    directory itself. *)
Definition file_save (path : pystr) (data : list byte) : M unit :=
  if bool_decide (path = []) then raise IsADirectoryError
  else write_file path (Upload data).

(** ** [call_gemini], lines 79-82 *)
Definition call_gemini (prompt : pystr) : M pystr :=
  λ s, (State (tmpdir s) (prompts s ++ [prompt]),
        match generate_content (length (prompts s)) prompt with
        | Some response_text => inr response_text
        | None => inl GenerationError
        end).

(** ** [extract_text_with_positions], lines 87-98 *)
Definition extract_text_with_positions (pdf_path : pystr)
  : M (list (list item)) :=
  let! doc := fitz_open pdf_path in
  mret (extract_pages doc []).

(** ** PDF Rebuilder: [rebuild_pdf_with_translation], lines 100-118 *)

Definition redact_loop (page_items : list item) (page : pdf_page) : pdf_page :=
  fold_left (λ page item,
               let bbox := bbox item in
               page_do (add_redact_annot bbox (1, 1, 1)%N) page)
            page_items page.

Definition insert_loop (page_items : list item) (page : pdf_page) : pdf_page :=
  fold_left (λ page item,
               let '(x0, y0, _, _) := bbox item in
               let text := text item in
               page_do (insert_text (x0, y0) text (lit "helv") 10%N
                                    (0, 0, 0)%N) page)
            page_items page.

(** Lines 103-117 for one page. *)
Definition rebuild_page (page_items : list item) (page : pdf_page) : pdf_page :=
  insert_loop page_items
    (page_do apply_redactions (redact_loop page_items page)).

(** The loop of line 102; [done] holds the pages already treated. *)
Fixpoint rebuild_pages (translated_texts : list (list item))
    (page_num : nat) (doc done : document) : Err document :=
  match doc with
  | [] => inr done
  | page :: rest =>
      try! page_items := getitem translated_texts page_num in
      rebuild_pages translated_texts (S page_num) rest
        (done ++ [rebuild_page page_items page])
  end.

Definition rebuild_pdf_with_translation (pdf_path : pystr)
    (translated_texts : list (list item)) (output_path : pystr) : M unit :=
  let! doc := fitz_open pdf_path in
  let! doc := lift (rebuild_pages translated_texts 0 doc []) in
  if fitz_save_ok pdf_path output_path doc
  then write_file output_path (PdfFile doc)
  else raise SaveError.

(** ** The handler [index], lines 123-198 *)

Inductive http_method := GET | HEAD | POST.

(** [request.files["file"]]: the file name sent by the client and the
    uploaded bytes. *)
Record file_storage := FileStorage {
  filename : pystr;
  stream : list byte }.

Record request_t := Request {
  method : http_method;
  files_file : option file_storage;
  form_target_language : option pystr;
  form_mode : option pystr }.

Inductive response :=
| Attachment (download_name : pystr) (body : file)
| Rendered (template : pystr) (languages : json).

(** [send_file(path, as_attachment=True)]. *)
Definition send_file (path : pystr) : M response :=
  let! f := read_file path in
  mret (Attachment path f).

(** Lines 141-145, and again 168-172: the structured branch up to the
    written [output.json]. *)
Definition json_branch (text target_language : pystr) : M pystr :=
  let! gemini_output := call_gemini (prompt_json text target_language) in
  let! json_data := or_raise JSONDecodeError (json_loads gemini_output) in
  let json_path := lit "output.json" in
  do! write_file json_path (JsonFile []) in
  let! dumped := or_raise UnicodeEncodeError (json_dump json_data) in
  do! write_file json_path (JsonFile dumped) in
  mret json_path.

(** The loop of lines 151-161, and again 176-186. *)
Fixpoint translate_pages (target_language : pystr)
    (pages_data translated_pages : list (list item))
  : M (list (list item)) :=
  match pages_data with
  | [] => mret translated_pages
  | page_items :: rest =>
      let page_text := join_nl (text <$> page_items) in
      let! translated_text :=
        call_gemini (prompt_translate page_text target_language) in
      let! translated_items := lift (align page_items translated_text) in
      translate_pages target_language rest
        (translated_pages ++ [translated_items])
  end.

(** Lines 149-164, and again 174-189: the rebuild branch up to the written
    [translated.pdf]. *)
Definition pdf_branch (input_pdf_path target_language : pystr) : M pystr :=
  let! pages_data := extract_text_with_positions input_pdf_path in
  let! translated_pages := translate_pages target_language pages_data [] in
  let output_pdf_path := lit "translated.pdf" in
  do! rebuild_pdf_with_translation input_pdf_path translated_pages
        output_pdf_path in
  mret output_pdf_path.

(** Lines 191-195: the archive, created empty and filled member by
    member. *)
Definition zip_both (json_path output_pdf_path : pystr) : M pystr :=
  let zip_path := lit "result.zip" in
  do! write_file zip_path (ZipFile []) in
  let! j := read_file json_path in
  do! write_file zip_path (ZipFile [(lit "output.json", j)]) in
  let! p := read_file output_pdf_path in
  do! write_file zip_path
        (ZipFile [(lit "output.json", j); (lit "translated.pdf", p)]) in
  mret zip_path.

(** [request.form.get("target_language", "en")]. *)
Definition target_language_of (request : request_t) : pystr :=
  default (lit "en") (form_target_language request).

(** Lines 135-138: the text of all pages, in page order. *)
Definition document_text (doc : document) : pystr :=
  fold_left (λ text page, text ++ get_text page) doc [].

(** Lines 140-196: the [if] chain on the mode.  [None] is the fall-through
    to line 198, when no branch returns. *)
Definition dispatch (user_choice : option pystr)
    (input_pdf_path text target_language : pystr) : M (option response) :=
  if bool_decide (user_choice = Some (lit "json")) then
    let! json_path := json_branch text target_language in
    let! r := send_file json_path in
    mret (Some r)
  else if bool_decide (user_choice = Some (lit "pdf")) then
    let! output_pdf_path := pdf_branch input_pdf_path target_language in
    let! r := send_file output_pdf_path in
    mret (Some r)
  else if bool_decide (user_choice = Some (lit "both")) then
    let! json_path := json_branch text target_language in
    let! output_pdf_path := pdf_branch input_pdf_path target_language in
    let! zip_path := zip_both json_path output_pdf_path in
    let! r := send_file zip_path in
    mret (Some r)
  else mret None.

(** Lines 126-196, the body of [if request.method == "POST"]: the upload is
    saved and read as text before the mode is looked at. *)
Definition index_post (request : request_t) : M (option response) :=
  let! file := or_raise BadRequestKeyError (files_file request) in
  let target_language := target_language_of request in
  let user_choice := form_mode request in
  let filename := secure_filename (filename file) in
  let input_pdf_path := filename in
  do! file_save input_pdf_path (stream file) in
  let! doc := fitz_open input_pdf_path in
  let text := document_text doc in
  dispatch user_choice input_pdf_path text target_language.

(** The request's state once the upload is saved, lines 130-133. *)
Definition saved_upload (file : file_storage) : state :=
  State (<[secure_filename (filename file) := Upload (stream file)]> ∅) [].

(** What a request leaves behind: the prompts sent to the remote model, and
    the response or the exception that reaches Flask.  The temporary
    directory starts empty and is gone when the handler returns. *)
Record outcome := Outcome {
  sent_prompts : list pystr;
  result : Err response }.

Definition index (LANGUAGES : json) (request : request_t) : outcome :=
  let page := Rendered (lit "index.html") LANGUAGES in
  match method request with
  | POST =>
      match index_post request (State ∅ []) with
      | (s, inl e) => Outcome (prompts s) (inl e)
      | (s, inr (Some r)) => Outcome (prompts s) (inr r)
      | (s, inr None) => Outcome (prompts s) (inr page)
      end
  | _ => Outcome [] (inr page)
  end.

(** A prompt built by one of the two templates for the language [tl]. *)
Definition for_language (tl prompt : pystr) : Prop :=
  ∃ text, prompt = prompt_json text tl ∨ prompt = prompt_translate text tl.

(** The request was processed for the language [tl]: a prompt built for
    it went to the remote model. *)
Definition processed_with (tl : pystr) (o : outcome) : Prop :=
  ∃ prompt, prompt ∈ sent_prompts o ∧ for_language tl prompt.

(** The text sent for a page, line 152 (and 177), and the prompt line 153
    (and 178) builds for a page of the opened document. *)
Definition page_text_of (page_items : list item) : pystr :=
  join_nl (text <$> page_items).

Definition page_prompt (tl : pystr) (page : pdf_page) : pystr :=
  prompt_translate
    (page_text_of (extract_blocks (get_text_blocks page) [])) tl.

(** The file the caller receives, if any. *)
Definition delivered (o : outcome) : option file :=
  match result o with
  | inr (Attachment _ f) => Some f
  | _ => None
  end.

End Pipeline.

(** ** A concrete world, for running the model

    Coordinates are integers; a file parses when it starts with [%PDF], and
    then holds the one-page document [demo_doc]; the JSON codec accepts the
    single text [{}]; the remote model answers the [n]-th call with the
    [n]-th element of [answers], and fails when there is none. *)
Module Demo.

Definition demo_doc : list (@pdf_page Z) :=
  [ PdfPage (0, 0, 612, 792)%Z
      [ RawBlock 72 72 300 90 (lit "Bonjour") 0 0;
        RawBlock 72 100 300 118 (lit "  ") 1 0;
        RawBlock 72 130 300 148 (lit "le monde") 2 0 ]%Z
      (lit "Bonjour" ++ nl :: lit "le monde" ++ [nl])
      [] ].

Definition pdf_magic : list byte := [x25; x50; x44; x46].

Definition collaborators (answers : list (option pystr))
  : @Collaborators Z :=
  {| secure_filename := λ name, name;
     fitz_parse := λ _ f,
       match f with
       | Upload data =>
           if bool_decide (Byte.to_N <$> take 4 data = Byte.to_N <$> pdf_magic)
           then Some demo_doc
           else None
       | _ => None
       end;
     fitz_save_ok := λ name out doc,
       bool_decide (name ≠ out) && bool_decide (0 < length doc);
     json_loads := λ s,
       if bool_decide (s = lit "{}") then Some (JObject []) else None;
     json_dump := λ _, Some (lit "{}");
     generate_content := λ n _, mjoin (answers !! n) |}.

(** A valid PNG image of one pixel. *)
Definition png_image : list byte :=
  [x89; x50; x4e; x47; x0d; x0a; x1a; x0a; x00; x00; x00; x0d; x49; x48;
   x44; x52; x00; x00; x00; x01; x00; x00; x00; x01; x08; x00; x00; x00;
   x00; x3a; x7e; x9b; x55; x00; x00; x00; x0a; x49; x44; x41; x54; x78;
   x9c; x63; xf8; x0f; x00; x01; x01; x01; x00; xb1; x38; xf6; x14; x00;
   x00; x00; x00; x49; x45; x4e; x44; xae; x42; x60; x82].

(** The document [fitz.open] makes of an image: one page without text.  Of
    this page only the plain text is read in the runs below. *)
Definition png_doc : list (@pdf_page Z) :=
  [ PdfPage (0, 0, 1, 1)%Z [] [] [] ].

(** The same world with two behaviours of the real collaborators added:
    [fitz.open] also opens a PNG image, as a document of one page;
    [json.loads] also accepts the constant [NaN], which [json.dump] writes
    back as it is. *)
Definition lenient (answers : list (option pystr)) : @Collaborators Z :=
  {| secure_filename := λ name, name;
     fitz_parse := λ _ f,
       match f with
       | Upload data =>
           if bool_decide (Byte.to_N <$> take 4 data = Byte.to_N <$> pdf_magic)
           then Some demo_doc
           else if bool_decide (Byte.to_N <$> take 8 data
                                = Byte.to_N <$> take 8 png_image)
           then Some png_doc
           else None
       | _ => None
       end;
     fitz_save_ok := λ name out doc,
       bool_decide (name ≠ out) && bool_decide (0 < length doc);
     json_loads := λ s,
       if bool_decide (s = lit "{}") then Some (JObject [])
       else if bool_decide (s = lit "NaN") then Some (JNumber (lit "NaN"))
       else None;
     json_dump := λ j,
       match j with
       | JNumber literal => Some literal
       | _ => Some (lit "{}")
       end;
     generate_content := λ n _, mjoin (answers !! n) |}.

Definition upload (name : string) (data : list byte) : file_storage :=
  FileStorage (lit name) data.

Definition post (f : file_storage) (lang mode : string) : request_t :=
  Request POST (Some f) (Some (lit lang)) (Some (lit mode)).

Definition languages : json := JArray [JString (lit "en"); JString (lit "fr")].

End Demo.

(** * Properties *)

(** Case analysis on membership in a list given by its elements. *)
Ltac each_element H :=
  repeat (apply elem_of_cons in H as [->|H]);
  [..|by apply elem_of_nil in H].

(** ** Strings *)

Lemma lstrip_nil (s : pystr) : lstrip s = [] ↔ forallb isspace s = true.
Proof.
  induction s as [|c s IH]; simpl; [done|].
  destruct (isspace c); simpl; [done|]. split; discriminate.
Qed.

Lemma lstrip_all_space (s : pystr) :
  forallb isspace (lstrip s) = forallb isspace s.
Proof.
  induction s as [|c s IH]; simpl; [done|].
  destruct (isspace c) eqn:Hc; simpl; [done|]. by rewrite Hc.
Qed.

Lemma forallb_reverse (f : N → bool) (s : pystr) :
  forallb f (reverse s) = forallb f s.
Proof.
  induction s as [|c s IH]; [done|].
  rewrite reverse_cons, forallb_app, IH. simpl.
  rewrite andb_true_r. apply andb_comm.
Qed.

Lemma reverse_eq_nil {A} (l : list A) : reverse l = [] ↔ l = [].
Proof.
  split; [|by intros ->].
  intros H. apply (f_equal length) in H.
  rewrite length_reverse in H. by destruct l.
Qed.

(** Trimming leaves nothing exactly when every code point is white
    space. *)
Lemma strip_nil (s : pystr) : strip s = [] ↔ forallb isspace s = true.
Proof.
  unfold strip, rstrip.
  rewrite reverse_eq_nil, lstrip_nil, forallb_reverse.
  by rewrite lstrip_all_space.
Qed.

Lemma truthy_strip (s : pystr) : truthy (strip s) = true ↔ strip s ≠ [].
Proof. destruct (strip s); simpl; split; (done || discriminate || auto). Qed.

Lemma split_nl_not_nil (s : pystr) : split_nl s ≠ [].
Proof.
  induction s as [|c s IH]; simpl; [done|].
  destruct (c =? nl)%N; [done|]. by destruct (split_nl s).
Qed.

(** [split] is the inverse of [join]: no line is lost or altered. *)
Lemma join_split_nl (s : pystr) : join_nl (split_nl s) = s.
Proof.
  induction s as [|c s IH]; simpl; [done|].
  destruct (c =? nl)%N eqn:Hc.
  - apply N.eqb_eq in Hc as ->.
    destruct (split_nl s) eqn:Hs; [by destruct (split_nl_not_nil s)|].
    simpl in *. by rewrite IH.
  - destruct (split_nl s) as [|l ls] eqn:Hs;
      [by destruct (split_nl_not_nil s)|].
    simpl in *. destruct ls; simpl in *; by rewrite <- IH.
Qed.

(** A split has one line more than the text has line breaks. *)
Lemma split_nl_length (s : pystr) :
  length (split_nl s) = S (length (filter (λ c, c = nl) s)).
Proof.
  induction s as [|c s IH]; simpl; [done|].
  destruct (c =? nl)%N eqn:Hc.
  - apply N.eqb_eq in Hc. rewrite filter_cons_True by done. simpl.
    by rewrite IH.
  - apply N.eqb_neq in Hc. rewrite filter_cons_False by done.
    destruct (split_nl s) as [|l ls] eqn:Hs;
      [by destruct (split_nl_not_nil s)|].
    by rewrite <- IH.
Qed.

(** No line of a split holds a line break. *)
Lemma split_nl_lines (s : pystr) : Forall (λ l, nl ∉ l) (split_nl s).
Proof.
  induction s as [|c s IH]; simpl.
  - constructor; [|constructor]. by intros ?%elem_of_nil.
  - destruct (c =? nl)%N eqn:Hc.
    + constructor; [by intros ?%elem_of_nil | done].
    + apply N.eqb_neq in Hc.
      destruct (split_nl s) as [|l ls] eqn:Hs;
        [by destruct (split_nl_not_nil s)|].
      inversion IH as [|?? Hl Hls]; subst. constructor; [|done].
      intros [E|?]%elem_of_cons; [by subst c | by apply Hl].
Qed.

(** ** Line Aligner *)

Section AlignerProperties.

Context {coord : Type}.
Implicit Types (page_items aligned : list (@item coord)).
Implicit Types (split_translations : list pystr).

(** The loop never raises: the index is read under its guard.  Block [k]
    of the remaining ones is block [i + k] of the page. *)
Lemma align_loop_spec split_translations page_items i translated_items :
  align_loop split_translations i page_items translated_items
  = inr (translated_items ++
         imap (λ k it, Item (bbox it)
                 (default (text it) (split_translations !! (i + k))))
              page_items).
Proof.
  revert i translated_items.
  induction page_items as [|it rest IH]; intros i acc; simpl.
  - by rewrite app_nil_r.
  - case_bool_decide as Hi.
    + destruct (lookup_lt_is_Some_2 _ _ Hi) as [line Hline].
      unfold getitem. rewrite Hline. simpl. rewrite IH, <- app_assoc. simpl.
      rewrite Nat.add_0_r, Hline. simpl. do 3 f_equal.
      apply imap_ext. intros k x _. simpl. by rewrite Nat.add_succ_r.
    + simpl. rewrite IH, <- app_assoc. simpl.
      rewrite Nat.add_0_r, (lookup_ge_None_2 split_translations i) by lia.
      simpl. do 3 f_equal.
      apply imap_ext. intros k x _. simpl. by rewrite Nat.add_succ_r.
Qed.

Lemma align_spec page_items translated_text :
  align page_items translated_text
  = inr (imap (λ i it, Item (bbox it)
                 (default (text it) (split_nl translated_text !! i)))
              page_items).
Proof. unfold align. by rewrite align_loop_spec. Qed.

(** C1. Line Aligner positional rule: the translated text is split at its
    line breaks, into lines that hold no line break, that joined by line
    breaks give the text back, and that are one more than the text has line
    breaks.  For every page the aligner returns a sequence of the same
    length and the same bounding boxes in the same order; block [i] carries
    line [i] when there is such a line, and its own original text
    otherwise, so that every block at or beyond the number of lines keeps
    its text. *)
Theorem aligner_positional page_items (translated_text : pystr) :
  ∃ lines aligned,
    split_nl translated_text = lines
    ∧ join_nl lines = translated_text
    ∧ Forall (λ l, nl ∉ l) lines
    ∧ length lines = S (length (filter (λ c, c = nl) translated_text))
    ∧ align page_items translated_text = inr aligned
    ∧ length aligned = length page_items
    ∧ bbox <$> aligned = bbox <$> page_items
    ∧ (∀ i block, page_items !! i = Some block →
         ∃ a, aligned !! i = Some a ∧ bbox a = bbox block
              ∧ text a = match lines !! i with
                         | Some line => line
                         | None => text block
                         end)
    ∧ (∀ i a block,
         length lines ≤ i →
         aligned !! i = Some a → page_items !! i = Some block →
         text a = text block).
Proof.
  eexists _, _. split; [done|].
  split; [apply join_split_nl|]. split; [apply split_nl_lines|].
  split; [apply split_nl_length|].
  split; [apply align_spec|].
  split; [apply length_imap|].
  split.
  { rewrite fmap_imap. rewrite <- (imap_const bbox page_items).
    by apply imap_ext. }
  split.
  - intros i block Hb. eexists. rewrite list_lookup_imap, Hb. simpl.
    split; [done|]. split; [done|]. simpl.
    by destruct (split_nl translated_text !! i).
  - intros i a block Hge Ha Hb.
    rewrite list_lookup_imap, Hb in Ha. simpl in Ha.
    injection Ha as <-. simpl.
    by rewrite (lookup_ge_None_2 _ _ Hge).
Qed.

(** The two examples of the specification: two blocks, two lines; two
    blocks, one line. *)
Example aligner_hello_world (A B : @bbox_t coord) (a b : pystr) :
  align [Item A a; Item B b] (lit "Hello" ++ nl :: lit "World")
  = inr [Item A (lit "Hello"); Item B (lit "World")].
Proof. reflexivity. Qed.

Example aligner_hello_only (A B : @bbox_t coord) (a b : pystr) :
  align [Item A a; Item B b] (lit "Hello")
  = inr [Item A (lit "Hello"); Item B b].
Proof. reflexivity. Qed.

(** C2, as amended.  With blocks of non-blank text, the text a block
    receives is blank exactly when the translated text has a line at the
    block's index and that line is blank; a block beyond the available
    lines keeps its own text, which is not blank. *)
Theorem aligner_blank_only_from_blank_line page_items
    (translated_text : pystr) aligned :
  (∀ it, it ∈ page_items → strip (text it) ≠ []) →
  align page_items translated_text = inr aligned →
  ∀ i a, aligned !! i = Some a →
    (strip (text a) = [] ↔
     ∃ line, split_nl translated_text !! i = Some line ∧ strip line = [])
    ∧ (length (split_nl translated_text) ≤ i →
       page_items !! i = Some a ∧ strip (text a) ≠ []).
Proof.
  intros Hnb Hal i a Ha.
  rewrite align_spec in Hal. injection Hal as <-.
  rewrite list_lookup_imap in Ha.
  destruct (page_items !! i) as [it|] eqn:Hit; [|done].
  simpl in Ha. injection Ha as <-. simpl.
  assert (strip (text it) ≠ []) as Hit'
    by (eapply Hnb, list_elem_of_lookup_2; done).
  split.
  - destruct (split_nl translated_text !! i) as [line|]; simpl.
    + split; [by eauto|]. by intros (? & [= <-] & ?).
    + split; [done|]. by intros (? & ? & ?).
  - intros Hge. rewrite (lookup_ge_None_2 _ _ Hge). simpl.
    by destruct it.
Qed.

End AlignerProperties.

(** Two non-blank blocks and a translated text that ends in a line break:
    the second block receives the empty line after the break. *)
Lemma aligner_blank_counterexample :
  let page_items := [Item (72, 72, 300, 90)%Z (lit "Bonjour");
                     Item (72, 130, 300, 148)%Z (lit "le monde")] in
  let translated_text := lit "Hello" ++ [nl] in
  (∀ it, it ∈ page_items → strip (text it) ≠ [])
  ∧ ∃ aligned a,
      align page_items translated_text = inr aligned
      ∧ aligned !! 1 = Some a ∧ text a = [] ∧ strip (text a) = [].
Proof.
  split.
  - intros it Hit. each_element Hit; by vm_compute.
  - by eexists _, _.
Qed.

(** The example of the specification, read off the theorem: boxes A and B,
    translated text ["Hello\nWorld"]. *)
Lemma aligner_positional_witness :
  let A := (72, 72, 300, 90)%Z in
  let B := (72, 130, 300, 148)%Z in
  ∃ aligned,
    align [Item A (lit "Bonjour"); Item B (lit "le monde")]
          (lit "Hello" ++ nl :: lit "World") = inr aligned
    ∧ aligned !! 0 = Some (Item A (lit "Hello"))
    ∧ aligned !! 1 = Some (Item B (lit "World"))
    ∧ length aligned = 2.
Proof.
  intros A B.
  destruct (aligner_positional
              [Item A (lit "Bonjour"); Item B (lit "le monde")]
              (lit "Hello" ++ nl :: lit "World"))
    as (lines & aligned & Hsplit & _ & _ & _ & Hal & Hlen & _ & Hpos & _).
  exists aligned. split; [exact Hal|].
  vm_compute in Hsplit. subst lines.
  destruct (Hpos 0 _ eq_refl) as ([b0 t0] & H0 & Hb0 & Ht0).
  destruct (Hpos 1 _ eq_refl) as ([b1 t1] & H1 & Hb1 & Ht1).
  simpl in Hb0, Ht0, Hb1, Ht1. subst b0 t0 b1 t1.
  split; [exact H0|]. split; [exact H1|]. exact Hlen.
Defined.

Lemma aligner_blank_only_from_blank_line_witness :
  let page_items := [Item (72, 72, 300, 90)%Z (lit "Bonjour");
                     Item (72, 130, 300, 148)%Z (lit "le monde")] in
  let aligned := [Item (72, 72, 300, 90)%Z (lit "Hello");
                  Item (72, 130, 300, 148)%Z (lit "le monde")] in
  (strip (lit "le monde") = [] ↔
   ∃ line, split_nl (lit "Hello") !! 1 = Some line ∧ strip line = [])
  ∧ (length (split_nl (lit "Hello")) ≤ 1 →
     page_items !! 1 = Some (Item (72, 130, 300, 148)%Z (lit "le monde"))
     ∧ strip (lit "le monde") ≠ []).
Proof.
  intros page_items aligned.
  refine (aligner_blank_only_from_blank_line
            page_items (lit "Hello") aligned _ _
            1 (Item (72, 130, 300, 148)%Z (lit "le monde")) _).
  - intros it Hit. each_element Hit; by vm_compute.
  - reflexivity.
  - reflexivity.
Defined.

(** ** Text Extractor *)

(** Unfolds the monadic plumbing down to the collaborators' answers. *)
Ltac run_steps :=
  unfold fitz_open, send_file, file_save, write_file, read_file, or_raise,
    lift, mbind, mret, raise; simpl.

Section ExtractorProperties.

Context {coord : Type} `{!@Collaborators coord}.
Implicit Types (blocks : list (@raw_block coord)).
Implicit Types (doc : list (@pdf_page coord)).

Abbreviation not_blank := (λ b : raw_block, strip (block_text b) ≠ []).

Lemma extract_blocks_spec blocks page_items :
  extract_blocks blocks page_items
  = page_items ++ (block_item <$> filter not_blank blocks).
Proof.
  revert page_items.
  induction blocks as [|b rest IH]; intros acc; simpl.
  - by rewrite app_nil_r.
  - destruct b as [a0 b0 a1 b1 t no ty]; simpl.
    destruct (truthy (strip t)) eqn:Ht.
    + apply truthy_strip in Ht.
      rewrite IH, filter_cons_True by done.
      by rewrite <- app_assoc.
    + rewrite IH, filter_cons_False; [done|]. simpl.
      intros Hne. apply truthy_strip in Hne. congruence.
Qed.

Lemma extract_pages_spec doc pages_data :
  extract_pages doc pages_data
  = pages_data ++
    ((λ page, block_item <$> filter not_blank (get_text_blocks page)) <$> doc).
Proof.
  revert pages_data.
  induction doc as [|page rest IH]; intros acc; simpl.
  - by rewrite app_nil_r.
  - rewrite IH, extract_blocks_spec, <- app_assoc. done.
Qed.

(** C3. Text Extractor contract: when the file at the path parses, the
    extractor returns one block list per page, in document order; the list
    of a page holds, in the library's order, exactly the blocks whose
    trimmed text is not empty, each with the four coordinates and the text
    the library reported. *)
Theorem extractor_contract (pdf_path : pystr) (f : file) doc (s : state) :
  tmpdir s !! pdf_path = Some f →
  fitz_parse pdf_path f = Some doc →
  ∃ pages_data,
    extract_text_with_positions pdf_path s = (s, inr pages_data)
    ∧ length pages_data = length doc
    ∧ ∀ n page, doc !! n = Some page →
        ∃ page_items,
          pages_data !! n = Some page_items
          ∧ page_items
            = block_item <$> filter not_blank (get_text_blocks page)
          ∧ (∀ b, b ∈ get_text_blocks page →
               (block_item b ∈ page_items ↔ strip (block_text b) ≠ []))
          ∧ (∀ it, it ∈ page_items →
               ∃ b, b ∈ get_text_blocks page
                    ∧ strip (block_text b) ≠ []
                    ∧ bbox it = (x0 b, y0 b, x1 b, y1 b)
                    ∧ text it = block_text b).
Proof.
  intros Hf Hdoc. eexists. split; [|split].
  - unfold extract_text_with_positions. run_steps.
    rewrite Hf, Hdoc. simpl. rewrite extract_pages_spec. done.
  - simpl. by rewrite length_fmap.
  - intros n page Hn. eexists. simpl.
    rewrite list_lookup_fmap, Hn. simpl.
    split; [done|]. split; [done|]. split.
    + intros b Hb. rewrite list_elem_of_fmap. split.
      * intros (b' & Heq & [Hnb _]%list_elem_of_filter).
        unfold block_item in Heq. injection Heq as _ _ _ _ Ht.
        simpl in Hnb. by rewrite Ht.
      * intros Hnb. exists b. split; [done|].
        by apply list_elem_of_filter.
    + intros it (b & -> & [Hnb Hb]%list_elem_of_filter)%list_elem_of_fmap.
      by exists b.
Qed.


End ExtractorProperties.

Lemma extractor_contract_witness :
  let s := State {[ lit "a.pdf" := Upload Demo.pdf_magic ]} [] in
  ∃ pages_data,
    @extract_text_with_positions Z (Demo.collaborators []) (lit "a.pdf") s
    = (s, inr pages_data)
    ∧ pages_data
      = [[Item (72, 72, 300, 90)%Z (lit "Bonjour");
          Item (72, 130, 300, 148)%Z (lit "le monde")]].
Proof.
  intros s.
  destruct (@extractor_contract Z (Demo.collaborators []) (lit "a.pdf")
              (Upload Demo.pdf_magic) Demo.demo_doc s)
    as (pages_data & Hrun & _ & _).
  - reflexivity.
  - reflexivity.
  - exists pages_data. split; [exact Hrun|].
    vm_compute in Hrun. by injection Hrun as <-.
Defined.

(** ** PDF Rebuilder *)

Section RebuilderProperties.

Context {coord : Type} `{!@Collaborators coord}.
Implicit Types (page_items : list (@item coord)).
Implicit Types (translated_texts : list (list (@item coord))).
Implicit Types (doc out : list (@pdf_page coord)).
Implicit Types (page : @pdf_page coord).

Lemma redact_loop_spec page_items page :
  redact_loop page_items page
  = PdfPage (rect page) (get_text_blocks page) (get_text page)
            (ops page ++ redactions_of page_items).
Proof.
  unfold redact_loop, redactions_of. revert page.
  induction page_items as [|it rest IH]; intros page; simpl.
  - rewrite app_nil_r. by destruct page.
  - rewrite IH. simpl. by rewrite <- app_assoc.
Qed.

Lemma insert_loop_spec page_items page :
  insert_loop page_items page
  = PdfPage (rect page) (get_text_blocks page) (get_text page)
            (ops page ++ insertions_of page_items).
Proof.
  unfold insert_loop, insertions_of. revert page.
  induction page_items as [|it rest IH]; intros page; simpl.
  - rewrite app_nil_r. by destruct page.
  - rewrite IH. destruct it as [[[[a b] c] d] t]. simpl.
    by rewrite <- app_assoc.
Qed.

(** One page: its rectangle and reported text are untouched, and the
    operations are appended in the order redaction annotations, application
    of the redactions, insertions. *)
Lemma rebuild_page_spec page_items page :
  rebuild_page page_items page
  = PdfPage (rect page) (get_text_blocks page) (get_text page)
            (ops page ++ page_script page_items).
Proof.
  unfold rebuild_page, page_script.
  rewrite insert_loop_spec, redact_loop_spec. simpl.
  by rewrite <- !app_assoc.
Qed.

(** In the script of a page, what comes before an insertion holds the
    redaction of every block and their application, and what comes after
    holds no redaction. *)
Lemma page_script_order page_items before op after :
  page_script page_items = before ++ op :: after →
  is_insertion op = true →
  (∀ it, it ∈ page_items →
     add_redact_annot (bbox it) (1, 1, 1)%N ∈ before)
  ∧ apply_redactions ∈ before
  ∧ Forall (λ o, is_redaction o = false) after.
Proof.
  unfold page_script. intros Heq Hop.
  assert (Forall (λ o, is_insertion o = false) (redactions_of page_items))
    as Hred.
  { unfold redactions_of. apply Forall_fmap, Forall_forall. done. }
  assert (Forall (λ o, is_redaction o = false) (insertions_of page_items))
    as Hins.
  { unfold insertions_of. apply Forall_fmap, Forall_forall. done. }
  apply app_eq_inv in Heq as [(k & Hk1 & Hk2) | (k & Hk1 & Hk2)].
  - (* the insertion would be among the redaction annotations *)
    rewrite Hk1 in Hred. apply Forall_app in Hred as [_ Hred].
    destruct k as [|o k].
    + simpl in Hk2. injection Hk2 as -> _. discriminate.
    + inversion Hred; subst. simpl in Hk2. injection Hk2 as <- _. congruence.
  - destruct k as [|o k].
    + simpl in Hk2. injection Hk2 as <- _. discriminate.
    + simpl in Hk2. injection Hk2 as <- Hk2. subst before.
      split; [|split].
      * intros it Hit. apply elem_of_app. left.
        unfold redactions_of. apply list_elem_of_fmap. by exists it.
      * apply elem_of_app. right. apply elem_of_cons. by left.
      * rewrite Hk2 in Hins. apply Forall_app in Hins as [_ Hins].
        by inversion Hins.
Qed.

(** What a successful run of the page loop returns. *)
Lemma rebuild_pages_inv translated_texts doc page_num done out :
  rebuild_pages translated_texts page_num doc done = inr out →
  length out = length done + length doc
  ∧ (∀ k, k < length done → out !! k = done !! k)
  ∧ ∀ k page, doc !! k = Some page →
      ∃ page_items,
        translated_texts !! (page_num + k) = Some page_items
        ∧ out !! (length done + k) = Some (rebuild_page page_items page).
Proof.
  revert page_num done.
  induction doc as [|p rest IH]; intros n done; simpl.
  - intros [= <-]. split; [lia|]. split; [done|]. intros k page Hk. done.
  - unfold getitem.
    destruct (translated_texts !! n) as [page_items|] eqn:Hn; [|done].
    simpl. intros Hrun. apply IH in Hrun as (Hlen & Hdone & Hrest).
    rewrite length_app in Hlen, Hdone, Hrest. simpl in *.
    split; [lia|]. split.
    + intros k Hk. rewrite Hdone by lia. by rewrite lookup_app_l.
    + intros [|k] page Hk; simpl in Hk.
      * injection Hk as <-. exists page_items.
        rewrite !Nat.add_0_r. split; [done|].
        rewrite Hdone by lia. by rewrite list_lookup_middle.
      * destruct (Hrest k page Hk) as (items & Ht & Ho).
        exists items. split.
        -- by replace (n + S k) with (S n + k) by lia.
        -- by replace (length done + S k)
             with (length done + 1 + k) by lia.
Qed.

(** With a block list for every page, the page loop returns. *)
Lemma rebuild_pages_total translated_texts doc page_num done :
  page_num + length doc ≤ length translated_texts →
  ∃ out, rebuild_pages translated_texts page_num doc done = inr out.
Proof.
  revert page_num done.
  induction doc as [|p rest IH]; intros n done Hlen; simpl in *.
  - by eexists.
  - unfold getitem.
    destruct (lookup_lt_is_Some_2 translated_texts n) as [items Hn]; [lia|].
    rewrite Hn. simpl. apply IH. lia.
Qed.

(** C5. Rebuild ordering: when the rebuilder writes its output, every page
    of it carries, after the operations it already had, the redaction
    annotation of each of its blocks, then the application of the
    redactions, then the insertions; so before any insertion on a page
    every block of the page has been redacted and the redactions applied,
    and no redaction follows an insertion. *)
Theorem rebuild_redacts_before_inserting (pdf_path output_path : pystr)
    translated_texts (f : file) doc (s s' : state) :
  tmpdir s !! pdf_path = Some f →
  fitz_parse pdf_path f = Some doc →
  rebuild_pdf_with_translation pdf_path translated_texts output_path s
  = (s', inr ()) →
  ∃ out,
    tmpdir s' !! output_path = Some (PdfFile out)
    ∧ ∀ n page, doc !! n = Some page →
        ∃ page' page_items,
          out !! n = Some page'
          ∧ translated_texts !! n = Some page_items
          ∧ ops page' = ops page ++ page_script page_items
          ∧ ∀ before op after,
              page_script page_items = before ++ op :: after →
              is_insertion op = true →
              (∀ it, it ∈ page_items →
                 add_redact_annot (bbox it) (1, 1, 1)%N ∈ before)
              ∧ apply_redactions ∈ before
              ∧ Forall (λ o, is_redaction o = false) after.
Proof.
  intros Hf Hdoc. unfold rebuild_pdf_with_translation. run_steps.
  rewrite Hf, Hdoc. simpl.
  destruct (rebuild_pages translated_texts 0 doc []) as [e|out] eqn:Hrun;
    [done|].
  destruct (fitz_save_ok pdf_path output_path out); [|done].
  intros [= <-]. exists out. simpl. split; [apply lookup_insert_eq|].
  intros n page Hn.
  apply rebuild_pages_inv in Hrun as (_ & _ & Hpages).
  destruct (Hpages n page Hn) as (page_items & Ht & Ho). simpl in *.
  exists (rebuild_page page_items page), page_items.
  split; [done|]. split; [done|]. split.
  - by rewrite rebuild_page_spec.
  - apply page_script_order.
Qed.

(** Whenever the rebuilder returns, what it wrote has the page count and
    the page rectangles of its input. *)
Lemma rebuilder_output_frame (pdf_path output_path : pystr)
    translated_texts (f : file) doc (s s' : state) :
  tmpdir s !! pdf_path = Some f →
  fitz_parse pdf_path f = Some doc →
  rebuild_pdf_with_translation pdf_path translated_texts output_path s
  = (s', inr ()) →
  ∃ out,
    s' = State (<[output_path := PdfFile out]> (tmpdir s)) (prompts s)
    ∧ length out = length doc
    ∧ rect <$> out = rect <$> doc.
Proof.
  intros Hf Hdoc. unfold rebuild_pdf_with_translation. run_steps.
  rewrite Hf, Hdoc. simpl.
  destruct (rebuild_pages translated_texts 0 doc []) as [e|out] eqn:Hrun;
    [done|].
  destruct (fitz_save_ok pdf_path output_path out); [|done].
  intros [= <-]. exists out. split; [done|].
  apply rebuild_pages_inv in Hrun as (Hl & _ & Hpages). simpl in *.
  split; [done|].
  apply list_eq. intros n. rewrite !list_lookup_fmap.
  destruct (doc !! n) as [page|] eqn:Hn.
  - destruct (Hpages n page Hn) as (items & _ & ->). simpl.
    by rewrite rebuild_page_spec.
  - rewrite (lookup_ge_None_2 out n); [done|].
    apply lookup_ge_None_1 in Hn. lia.
Qed.

(** C6. Rebuilder frame guarantee: for a parseable input, whatever the
    rebuilder writes has as many pages as the input, each with the
    rectangle of the corresponding input page; and with a block list for
    every page the page loop does return such a document, which is then
    written at the output path unless the library refuses to save. *)
Theorem rebuilder_preserves_pages (pdf_path output_path : pystr)
    translated_texts (f : file) doc (s : state) :
  tmpdir s !! pdf_path = Some f →
  fitz_parse pdf_path f = Some doc →
  (∀ s',
     rebuild_pdf_with_translation pdf_path translated_texts output_path s
     = (s', inr ()) →
     ∃ out,
       tmpdir s' !! output_path = Some (PdfFile out)
       ∧ length out = length doc
       ∧ rect <$> out = rect <$> doc)
  ∧ (length doc ≤ length translated_texts →
     ∃ out,
       length out = length doc
       ∧ rect <$> out = rect <$> doc
       ∧ rebuild_pdf_with_translation pdf_path translated_texts
           output_path s
         = if fitz_save_ok pdf_path output_path out
           then (State (<[output_path := PdfFile out]> (tmpdir s))
                       (prompts s), inr ())
           else (s, inl SaveError)).
Proof.
  intros Hf Hdoc. split.
  - intros s' Hrun.
    destruct (rebuilder_output_frame _ _ _ _ _ _ _ Hf Hdoc Hrun)
      as (out & -> & Hl & Hr).
    exists out. simpl. by rewrite lookup_insert_eq.
  - intros Hlen.
    destruct (rebuild_pages_total translated_texts doc 0 []) as [out Hrun];
      [simpl; lia|].
    exists out.
    pose proof (rebuild_pages_inv _ _ _ _ _ Hrun) as (Hl & _ & Hpages).
    simpl in *. split; [done|]. split.
    + apply list_eq. intros n. rewrite !list_lookup_fmap.
      destruct (doc !! n) as [page|] eqn:Hn.
      * destruct (Hpages n page Hn) as (items & _ & ->). simpl.
        by rewrite rebuild_page_spec.
      * rewrite (lookup_ge_None_2 out n); [done|].
        apply lookup_ge_None_1 in Hn. lia.
    + unfold rebuild_pdf_with_translation. run_steps.
      rewrite Hf, Hdoc. simpl. rewrite Hrun.
      by destruct (fitz_save_ok pdf_path output_path out).
Qed.

End RebuilderProperties.

Lemma rebuild_redacts_before_inserting_witness :
  let s := State {[ lit "a.pdf" := Upload Demo.pdf_magic ]} [] in
  let translated_texts :=
    [[Item (72, 72, 300, 90)%Z (lit "Hello");
      Item (72, 130, 300, 148)%Z (lit "World")]] in
  let run := @rebuild_pdf_with_translation Z (Demo.collaborators [])
               (lit "a.pdf") translated_texts (lit "translated.pdf") s in
  ∃ out page',
    tmpdir run.1 !! lit "translated.pdf" = Some (PdfFile out)
    ∧ out !! 0 = Some page'
    ∧ ops page'
      = [add_redact_annot (72, 72, 300, 90)%Z (1, 1, 1)%N;
         add_redact_annot (72, 130, 300, 148)%Z (1, 1, 1)%N;
         apply_redactions;
         insert_text (72, 72)%Z (lit "Hello") (lit "helv") 10%N (0, 0, 0)%N;
         insert_text (72, 130)%Z (lit "World") (lit "helv") 10%N
                     (0, 0, 0)%N].
Proof.
  intros s translated_texts run.
  destruct (@rebuild_redacts_before_inserting Z (Demo.collaborators [])
              (lit "a.pdf") (lit "translated.pdf") translated_texts
              (Upload Demo.pdf_magic) Demo.demo_doc s run.1)
    as (out & Hout & Hpages).
  - reflexivity.
  - reflexivity.
  - reflexivity.
  - destruct (Hpages 0 _ eq_refl)
      as (page' & page_items & Hp & Ht & Hops & _).
    injection Ht as <-.
    exists out, page'. split; [exact Hout|]. split; [exact Hp|].
    exact Hops.
Defined.

Lemma rebuilder_preserves_pages_witness :
  let s := State {[ lit "a.pdf" := Upload Demo.pdf_magic ]} [] in
  let translated_texts :=
    [[Item (72, 72, 300, 90)%Z (lit "Hello");
      Item (72, 130, 300, 148)%Z (lit "World")]] in
  ∃ out,
    length out = 1
    ∧ rect <$> out = [(0, 0, 612, 792)%Z]
    ∧ @rebuild_pdf_with_translation Z (Demo.collaborators [])
        (lit "a.pdf") translated_texts (lit "translated.pdf") s
      = (State (<[lit "translated.pdf" := PdfFile out]> (tmpdir s))
               (prompts s), inr ()).
Proof.
  intros s translated_texts.
  destruct (@rebuilder_preserves_pages Z (Demo.collaborators [])
              (lit "a.pdf") (lit "translated.pdf") translated_texts
              (Upload Demo.pdf_magic) Demo.demo_doc s)
    as [_ Hrun].
  - reflexivity.
  - reflexivity.
  - destruct Hrun as (out & Hl & Hr & Hrun); [simpl; lia|].
    exists out. split; [exact Hl|]. split; [exact Hr|].
    rewrite Hrun.
    assert (length out = 1) as Hlen by exact Hl.
    destruct out as [|p1 [|p2 rest]]; [discriminate Hlen| |discriminate Hlen].
    reflexivity.
Defined.

(** ** The handler *)

Arguments lit : simpl never.
Arguments prompt_json : simpl never.
Arguments prompt_translate : simpl never.

(** The file names of the code are pairwise distinct. *)
Lemma json_not_pdf : lit "output.json" ≠ lit "translated.pdf".
Proof. by vm_compute. Qed.

Lemma zip_not_json : lit "result.zip" ≠ lit "output.json".
Proof. by vm_compute. Qed.

Lemma zip_not_pdf : lit "result.zip" ≠ lit "translated.pdf".
Proof. by vm_compute. Qed.

Section HandlerProperties.

Context {coord : Type} `{!@Collaborators coord}.
Implicit Types (request : request_t) (file : file_storage).
Implicit Types (s : @state coord) (doc : list (@pdf_page coord)).
Implicit Types (LANGUAGES : json) (tl text : pystr).

Lemma mbind_run {A B} (c : M A) (k : A → M B) s :
  mbind c k s
  = match c s with
    | (s', inl e) => (s', inl e)
    | (s', inr a) => k a s'
    end.
Proof. reflexivity. Qed.

(** *** Lines 126-138: saving and reading the upload *)

Lemma index_post_no_file request s :
  files_file request = None →
  index_post request s = (s, inl BadRequestKeyError).
Proof. intros Hfile. unfold index_post. by rewrite Hfile. Qed.

Lemma index_post_no_name request file s :
  files_file request = Some file →
  secure_filename (filename file) = [] →
  index_post request s = (s, inl IsADirectoryError).
Proof.
  intros Hfile Hname. unfold index_post. rewrite Hfile. run_steps.
  by rewrite Hname.
Qed.

Lemma index_post_unparseable request file :
  files_file request = Some file →
  secure_filename (filename file) ≠ [] →
  fitz_parse (secure_filename (filename file)) (Upload (stream file)) = None →
  index_post request (State ∅ []) = (saved_upload file, inl FileDataError).
Proof.
  intros Hfile Hname Hparse. unfold index_post. rewrite Hfile. run_steps.
  rewrite (bool_decide_eq_false_2 _ Hname). simpl.
  by rewrite lookup_insert_eq, Hparse.
Qed.

Lemma index_post_read request file doc :
  files_file request = Some file →
  secure_filename (filename file) ≠ [] →
  fitz_parse (secure_filename (filename file)) (Upload (stream file))
  = Some doc →
  index_post request (State ∅ [])
  = dispatch (form_mode request) (secure_filename (filename file))
      (document_text doc) (target_language_of request) (saved_upload file).
Proof.
  intros Hfile Hname Hparse. unfold index_post. rewrite Hfile. run_steps.
  rewrite (bool_decide_eq_false_2 _ Hname). simpl.
  by rewrite lookup_insert_eq, Hparse.
Qed.

(** *** The structured branch *)

Lemma json_branch_run text tl s :
  json_branch text tl s
  = let asked := prompts s ++ [prompt_json text tl] in
    let json_path := lit "output.json" in
    match generate_content (length (prompts s)) (prompt_json text tl) with
    | None => (State (tmpdir s) asked, inl GenerationError)
    | Some gemini_output =>
        match json_loads gemini_output with
        | None => (State (tmpdir s) asked, inl JSONDecodeError)
        | Some json_data =>
            match json_dump json_data with
            | None =>
                (State (<[json_path := JsonFile []]> (tmpdir s)) asked,
                 inl UnicodeEncodeError)
            | Some dumped =>
                (State (<[json_path := JsonFile dumped]>
                          (<[json_path := JsonFile []]> (tmpdir s))) asked,
                 inr json_path)
            end
        end
    end.
Proof.
  unfold json_branch, call_gemini. run_steps.
  destruct (generate_content _ _) as [gemini_output|]; [|done].
  destruct (json_loads gemini_output) as [json_data|]; [|done]. simpl.
  by destruct (json_dump json_data).
Qed.

(** *** The rebuild branch *)

(** The translation loop leaves the temporary directory alone and sends
    only translation prompts for the requested language. *)
Lemma translate_pages_run tl (pages_data translated_pages : list (list item))
    s :
  ∃ asked r,
    translate_pages tl pages_data translated_pages s
    = (State (tmpdir s) (prompts s ++ asked), r)
    ∧ Forall (for_language tl) asked.
Proof.
  revert translated_pages s.
  induction pages_data as [|page_items rest IH]; intros acc s; simpl.
  - exists [], (inr acc). rewrite app_nil_r. by destruct s.
  - rewrite mbind_run. unfold call_gemini at 1.
    set (p := prompt_translate _ tl).
    assert (for_language tl p) as Hp by (eexists; by right).
    destruct (generate_content _ p) as [translated_text|].
    + rewrite mbind_run. unfold lift. rewrite align_spec.
      edestruct IH as (asked & r & -> & Hasked). simpl.
      exists (p :: asked), r. rewrite <- app_assoc. by split; [|constructor].
    + exists [p], (inl GenerationError). by split; [|repeat constructor].
Qed.

Lemma rebuild_run (pdf_path output_path : pystr)
    (translated_texts : list (list item)) s :
  ∃ s' r,
    rebuild_pdf_with_translation pdf_path translated_texts output_path s
    = (s', r)
    ∧ prompts s' = prompts s
    ∧ match r with
      | inl _ => True
      | inr _ =>
          ∃ out, tmpdir s' = <[output_path := PdfFile out]> (tmpdir s)
      end.
Proof.
  unfold rebuild_pdf_with_translation. run_steps.
  destruct (tmpdir s !! pdf_path) as [f|]; [|by eexists _, _].
  destruct (fitz_parse pdf_path f) as [doc|]; [|by eexists _, _]. simpl.
  destruct (rebuild_pages translated_texts 0 doc []) as [e|out];
    [by eexists _, _|].
  destruct (fitz_save_ok pdf_path output_path out); [|by eexists _, _].
  eexists _, _. split; [done|]. split; [done|]. by exists out.
Qed.

Lemma pdf_branch_run (input_pdf_path : pystr) tl s :
  ∃ asked s' r,
    pdf_branch input_pdf_path tl s = (s', r)
    ∧ prompts s' = prompts s ++ asked
    ∧ Forall (for_language tl) asked
    ∧ match r with
      | inl _ => True
      | inr output_pdf_path =>
          output_pdf_path = lit "translated.pdf"
          ∧ ∃ out, tmpdir s'
                   = <[lit "translated.pdf" := PdfFile out]> (tmpdir s)
      end.
Proof.
  unfold pdf_branch. rewrite mbind_run.
  unfold extract_text_with_positions. run_steps.
  destruct (tmpdir s !! input_pdf_path) as [f|];
    [|exists []; eexists _, _; by rewrite app_nil_r].
  destruct (fitz_parse input_pdf_path f) as [doc|];
    [|exists []; eexists _, _; by rewrite app_nil_r]. simpl.
  destruct (translate_pages_run tl (extract_pages doc []) [] s)
    as (asked & r & -> & Hasked).
  exists asked.
  destruct r as [e|translated_pages]; [by eexists _, _|].
  destruct (rebuild_run input_pdf_path (lit "translated.pdf")
              translated_pages (State (tmpdir s) (prompts s ++ asked)))
    as (s' & r & -> & Hp & Hr).
  destruct r as [e|[]]; [by eexists _, _|].
  eexists _, _. split; [done|]. by repeat split.
Qed.

(** *** The archive of [both] mode *)

Lemma zip_send (j p : file) s :
  tmpdir s !! lit "output.json" = Some j →
  tmpdir s !! lit "translated.pdf" = Some p →
  ∃ s',
    mbind (zip_both (lit "output.json") (lit "translated.pdf"))
      (λ zip_path, mbind (send_file zip_path) (λ r, mret (Some r))) s
    = (s', inr (Some (Attachment (lit "result.zip")
                        (ZipFile [(lit "output.json", j);
                                  (lit "translated.pdf", p)]))))
    ∧ prompts s' = prompts s.
Proof.
  intros Hj Hp. unfold zip_both. run_steps.
  rewrite (lookup_insert_ne _ _ _ _ zip_not_json), Hj. simpl.
  rewrite !(lookup_insert_ne _ _ _ _ zip_not_pdf), Hp. simpl.
  rewrite lookup_insert_eq. by eexists.
Qed.

Lemma dispatch_both_run (input_pdf_path : pystr) text tl s :
  dispatch (Some (lit "both")) input_pdf_path text tl s
  = match json_branch text tl s with
    | (s2, inl e) => (s2, inl e)
    | (s2, inr json_path) =>
        match pdf_branch input_pdf_path tl s2 with
        | (s3, inl e) => (s3, inl e)
        | (s3, inr output_pdf_path) =>
            mbind (zip_both json_path output_pdf_path)
              (λ zip_path, mbind (send_file zip_path) (λ r, mret (Some r)))
              s3
        end
    end.
Proof.
  unfold dispatch.
  rewrite !bool_decide_eq_false_2 by (by vm_compute).
  rewrite bool_decide_eq_true_2 by done.
  reflexivity.
Qed.

(** In [both] mode the chain ends in an exception or in the archive of
    exactly the two files. *)
Lemma dispatch_both_shape (input_pdf_path : pystr) text tl s :
  ∃ s' r,
    dispatch (Some (lit "both")) input_pdf_path text tl s = (s', r)
    ∧ match r with
      | inl _ => True
      | inr o =>
          ∃ dumped out,
            o = Some (Attachment (lit "result.zip")
                        (ZipFile [(lit "output.json", JsonFile dumped);
                                  (lit "translated.pdf", PdfFile out)]))
      end.
Proof.
  rewrite dispatch_both_run, json_branch_run. simpl.
  destruct (generate_content _ _) as [gemini_output|]; [|by eexists _, _].
  destruct (json_loads gemini_output) as [json_data|]; [|by eexists _, _].
  destruct (json_dump json_data) as [dumped|]; [|by eexists _, _].
  match goal with
  | |- context [pdf_branch ?p ?t ?s2] =>
      destruct (pdf_branch_run p t s2) as (asked & s3 & r & -> & _ & _ & Hr)
  end.
  destruct r as [e|output_pdf_path]; [by eexists _, _|].
  destruct Hr as (-> & out & Hdir). simpl in Hdir.
  edestruct (zip_send (JsonFile dumped) (PdfFile out) s3) as (s' & -> & _).
  - rewrite Hdir, (lookup_insert_ne _ _ _ _ (not_eq_sym json_not_pdf)).
    apply lookup_insert_eq.
  - rewrite Hdir. apply lookup_insert_eq.
  - eexists _, _. split; [done|]. by exists dumped, out.
Qed.

(** Every prompt the chain sends is built for the requested language. *)
Lemma dispatch_prompts (user_choice : option pystr)
    (input_pdf_path : pystr) text tl s :
  ∃ asked,
    prompts (dispatch user_choice input_pdf_path text tl s).1
    = prompts s ++ asked
    ∧ Forall (for_language tl) asked.
Proof.
  assert (for_language tl (prompt_json text tl)) as Hj
    by (eexists; by left).
  assert (∀ s0 : @state coord, ∃ asked,
            prompts (json_branch text tl s0).1 = prompts s0 ++ asked
            ∧ Forall (for_language tl) asked) as Hjson.
  { intros s0. exists [prompt_json text tl].
    split; [|by repeat constructor].
    rewrite json_branch_run. simpl.
    destruct (generate_content _ _) as [gemini_output|]; [|done].
    destruct (json_loads gemini_output) as [json_data|]; [|done].
    by destruct (json_dump json_data). }
  assert (∀ (path : pystr) (s0 : @state coord),
            prompts (mbind (send_file path) (λ r, mret (Some r)) s0).1
            = prompts s0) as Hsend.
  { intros path s0. unfold send_file. run_steps.
    by destruct (tmpdir s0 !! path). }
  unfold dispatch. repeat case_bool_decide.
  - rewrite mbind_run. destruct (Hjson s) as (asked & Hp & Hasked).
    exists asked. split; [|done].
    destruct (json_branch text tl s) as [s1 [e|json_path]]; [done|].
    by rewrite Hsend.
  - rewrite mbind_run.
    destruct (pdf_branch_run input_pdf_path tl s)
      as (asked & s1 & r & -> & Hp & Hasked & _).
    exists asked. split; [|done].
    destruct r as [e|output_pdf_path]; [done|]. by rewrite Hsend.
  - rewrite mbind_run. destruct (Hjson s) as (asked1 & Hp1 & Hasked1).
    destruct (json_branch text tl s) as [s1 [e|json_path]];
      [by exists asked1|].
    rewrite mbind_run.
    destruct (pdf_branch_run input_pdf_path tl s1)
      as (asked2 & s2 & r & -> & Hp2 & Hasked2 & _).
    exists (asked1 ++ asked2). simpl in Hp1.
    split; [|by apply Forall_app].
    rewrite app_assoc, <- Hp1, <- Hp2.
    destruct r as [e|output_pdf_path]; [done|].
    rewrite mbind_run. unfold zip_both at 1. run_steps.
    repeat match goal with
           | |- context [match ?m !! ?k with _ => _ end] =>
               destruct (m !! k); simpl; try done
           end.
  - exists []. by rewrite app_nil_r.
Qed.

(** *** The claims about the handler *)


(** A POST without the file part, or with a file name that sanitises to
    nothing, fails before anything is parsed. *)
Lemma upload_missing_fails LANGUAGES request :
  method request = POST →
  (files_file request = None →
   index LANGUAGES request = Outcome [] (inl BadRequestKeyError))
  ∧ (∀ file, files_file request = Some file →
       secure_filename (filename file) = [] →
       index LANGUAGES request = Outcome [] (inl IsADirectoryError)).
Proof.
  intros Hm. unfold index. rewrite Hm. split.
  - intros Hfile. by rewrite index_post_no_file.
  - intros file Hfile Hname. by rewrite (index_post_no_name _ file).
Qed.

(** C8, as amended.  Structured-mode JSON parse failure: in [json] mode,
    when [json.loads] refuses the answer of the remote model, the request
    ends with the exception [json.loads] raised; the model was called
    exactly once, and no file is delivered. *)
Theorem structured_mode_rejects_bad_json LANGUAGES request file doc
    (gemini_output : pystr) :
  method request = POST →
  files_file request = Some file →
  form_mode request = Some (lit "json") →
  secure_filename (filename file) ≠ [] →
  fitz_parse (secure_filename (filename file)) (Upload (stream file))
  = Some doc →
  generate_content 0
    (prompt_json (document_text doc) (target_language_of request))
  = Some gemini_output →
  json_loads gemini_output = None →
  index LANGUAGES request
  = Outcome [prompt_json (document_text doc) (target_language_of request)]
            (inl JSONDecodeError)
  ∧ delivered (index LANGUAGES request) = None.
Proof.
  intros Hm Hfile Hmode Hname Hparse Hgen Hjson.
  assert (index LANGUAGES request
          = Outcome [prompt_json (document_text doc)
                       (target_language_of request)]
                    (inl JSONDecodeError)) as Hrun.
  { unfold index. rewrite Hm, (index_post_read _ _ _ Hfile Hname Hparse).
    rewrite Hmode. unfold dispatch.
    rewrite bool_decide_eq_true_2 by done.
    rewrite mbind_run, json_branch_run. simpl.
    by rewrite Hgen, Hjson. }
  by rewrite Hrun.
Qed.

(** C10, as amended.  Unknown-mode behaviour: a POST whose upload was saved
    and read and whose mode is none of [json], [pdf], [both] leaves the
    temporary directory with the upload alone, sends no prompt, raises
    nothing and answers with the rendered index page, exactly as the same
    request sent with GET. *)
Theorem unknown_mode_renders_index LANGUAGES request file doc :
  method request = POST →
  files_file request = Some file →
  secure_filename (filename file) ≠ [] →
  fitz_parse (secure_filename (filename file)) (Upload (stream file))
  = Some doc →
  form_mode request ≠ Some (lit "json") →
  form_mode request ≠ Some (lit "pdf") →
  form_mode request ≠ Some (lit "both") →
  index_post request (State ∅ []) = (saved_upload file, inr None)
  ∧ index LANGUAGES request
    = Outcome [] (inr (Rendered (lit "index.html") LANGUAGES))
  ∧ index LANGUAGES request
    = index LANGUAGES
        (Request GET (files_file request) (form_target_language request)
                 (form_mode request))
  ∧ delivered (index LANGUAGES request) = None.
Proof.
  intros Hm Hfile Hname Hparse Hj Hp Hb.
  assert (index_post request (State ∅ []) = (saved_upload file, inr None))
    as Hpost.
  { rewrite (index_post_read _ _ _ Hfile Hname Hparse). unfold dispatch.
    by rewrite !bool_decide_eq_false_2 by done. }
  assert (index LANGUAGES request
          = Outcome [] (inr (Rendered (lit "index.html") LANGUAGES)))
    as Hrun.
  { unfold index. by rewrite Hm, Hpost. }
  by rewrite Hrun.
Qed.

(** C7. Both-mode atomicity: a request in [both] mode ends either with an
    exception, and then no file is delivered, or with the archive holding
    exactly [output.json] and [translated.pdf]; when the structured branch
    raises, or the rebuild branch raises after it, that exception is the
    outcome of the request. *)
Theorem both_mode_all_or_nothing LANGUAGES request :
  method request = POST →
  form_mode request = Some (lit "both") →
  match result (index LANGUAGES request) with
  | inl e => delivered (index LANGUAGES request) = None
  | inr r =>
      ∃ dumped out,
        r = Attachment (lit "result.zip")
              (ZipFile [(lit "output.json", JsonFile dumped);
                        (lit "translated.pdf", PdfFile out)])
  end
  ∧ ∀ file doc,
      files_file request = Some file →
      secure_filename (filename file) ≠ [] →
      fitz_parse (secure_filename (filename file)) (Upload (stream file))
      = Some doc →
      let text := document_text doc in
      let target_language := target_language_of request in
      (∀ s2 e,
         json_branch text target_language (saved_upload file)
         = (s2, inl e) →
         index LANGUAGES request = Outcome (prompts s2) (inl e))
      ∧ (∀ s2 json_path s3 e,
           json_branch text target_language (saved_upload file)
           = (s2, inr json_path) →
           pdf_branch (secure_filename (filename file)) target_language s2
           = (s3, inl e) →
           index LANGUAGES request = Outcome (prompts s3) (inl e)).
Proof.
  intros Hm Hmode. split.
  - unfold delivered.
    destruct (result (index LANGUAGES request)) as [e|r] eqn:Hres; [done|].
    revert Hres. unfold index. rewrite Hm.
    destruct (files_file request) as [file|] eqn:Hfile;
      [|by rewrite index_post_no_file].
    destruct (decide (secure_filename (filename file) = [])) as [Hname|Hname];
      [by rewrite (index_post_no_name _ file)|].
    destruct (fitz_parse (secure_filename (filename file))
                (Upload (stream file))) as [doc|] eqn:Hparse;
      [|by rewrite (index_post_unparseable _ file)].
    rewrite (index_post_read _ _ _ Hfile Hname Hparse), Hmode.
    edestruct dispatch_both_shape as (s' & r' & -> & Hshape).
    destruct r' as [e|o]; [done|].
    destruct Hshape as (dumped & out & ->). simpl.
    intros [= <-]. by exists dumped, out.
  - intros file doc Hfile Hname Hparse text target_language. split.
    + intros s2 e Hjson. unfold index.
      rewrite Hm, (index_post_read _ _ _ Hfile Hname Hparse), Hmode.
      rewrite dispatch_both_run. fold text target_language.
      by rewrite Hjson.
    + intros s2 json_path s3 e Hjson Hpdf. unfold index.
      rewrite Hm, (index_post_read _ _ _ Hfile Hname Hparse), Hmode.
      rewrite dispatch_both_run. fold text target_language.
      by rewrite Hjson, Hpdf.
Qed.

(** C4, as amended.  The allow-list plays no part in how a request is
    processed: whatever [LANGUAGES] holds, the same prompts are sent and
    the same file is delivered; and every prompt sent is built for the
    language identifier of the form, or for [en] when the form has none. *)
Theorem target_language_used_unchecked (L1 L2 : json) request :
  sent_prompts (index L1 request) = sent_prompts (index L2 request)
  ∧ delivered (index L1 request) = delivered (index L2 request)
  ∧ (∀ e, result (index L1 request) = inl e
          ↔ result (index L2 request) = inl e)
  ∧ Forall (for_language (target_language_of request))
           (sent_prompts (index L1 request)).
Proof.
  unfold index, delivered. destruct (method request); simpl;
    try by repeat split.
  destruct (index_post request (State ∅ [])) as [s' [e|[r|]]] eqn:Hpost;
    simpl; repeat split; try done.
  all: replace s' with (index_post request (State ∅ [])).1
         by (by rewrite Hpost).
  all: clear Hpost.
  all: unfold index_post; run_steps.
  all: destruct (files_file request) as [file|]; simpl; [|done].
  all: case_bool_decide; simpl; [done|].
  all: rewrite lookup_insert_eq.
  all: destruct (fitz_parse _ _) as [doc|]; simpl; [|done].
  all: match goal with
       | |- context [dispatch ?u ?p ?t ?l ?s0] =>
           destruct (dispatch_prompts u p t l s0) as (asked & -> & Hasked)
       end.
  all: done.
Qed.

End HandlerProperties.

(** *** Runs in the concrete world *)

(** A request for the language [xx], which the table [en], [fr] does not
    list, is processed for [xx]: the prompt is built for it and the JSON
    file is delivered. *)
Lemma unlisted_language_counterexample :
  let request := Demo.post (Demo.upload "a.pdf" Demo.pdf_magic) "xx" "json" in
  let o := @index Z (Demo.collaborators [Some (lit "{}")])
             Demo.languages request in
  listed Demo.languages (target_language_of request) = false
  ∧ sent_prompts o = [prompt_json (document_text Demo.demo_doc) (lit "xx")]
  ∧ processed_with (target_language_of request) o
  ∧ delivered o = Some (JsonFile (lit "{}")).
Proof.
  intros request o.
  assert (sent_prompts o
          = [prompt_json (document_text Demo.demo_doc) (lit "xx")]) as Hsent
    by reflexivity.
  split; [reflexivity|]. split; [exact Hsent|]. split; [|reflexivity].
  exists (prompt_json (document_text Demo.demo_doc) (lit "xx")).
  split; [rewrite Hsent; apply elem_of_cons; by left|].
  eexists. left. reflexivity.
Qed.


Lemma structured_mode_rejects_bad_json_witness :
  let request := Demo.post (Demo.upload "a.pdf" Demo.pdf_magic) "fr" "json" in
  let o := @index Z (Demo.collaborators [Some (lit "Sure! Here it is")])
             Demo.languages request in
  o = Outcome [prompt_json (document_text Demo.demo_doc) (lit "fr")]
              (inl JSONDecodeError)
  ∧ delivered o = None.
Proof.
  intros request o.
  apply (@structured_mode_rejects_bad_json Z
           (Demo.collaborators [Some (lit "Sure! Here it is")])
           Demo.languages request
           (Demo.upload "a.pdf" Demo.pdf_magic) Demo.demo_doc
           (lit "Sure! Here it is")).
  - reflexivity.
  - reflexivity.
  - reflexivity.
  - by vm_compute.
  - reflexivity.
  - reflexivity.
  - reflexivity.
Defined.

Lemma unknown_mode_renders_index_witness :
  let file := Demo.upload "a.pdf" Demo.pdf_magic in
  let request := Demo.post file "fr" "docx" in
  let o := @index Z (Demo.collaborators []) Demo.languages request in
  @index_post Z (Demo.collaborators []) request (State ∅ [])
  = (@saved_upload Z (Demo.collaborators []) file, inr None)
  ∧ o = Outcome [] (inr (Rendered (lit "index.html") Demo.languages))
  ∧ o = @index Z (Demo.collaborators []) Demo.languages
          (Request GET (Some file) (Some (lit "fr")) (Some (lit "docx")))
  ∧ delivered o = None.
Proof.
  intros file request o.
  apply (@unknown_mode_renders_index Z (Demo.collaborators [])
           Demo.languages request file Demo.demo_doc).
  - reflexivity.
  - reflexivity.
  - by vm_compute.
  - reflexivity.
  - by vm_compute.
  - by vm_compute.
  - by vm_compute.
Defined.


(** An answer that is not valid JSON, the constant [NaN]: [json.loads]
    accepts it, and [json] mode delivers [output.json]. *)
Lemma not_json_counterexample :
  let request := Demo.post (Demo.upload "a.pdf" Demo.pdf_magic) "fr" "json" in
  let o := @index Z (Demo.lenient [Some (lit "NaN")]) Demo.languages request in
  starts_like_json (lit "NaN") = false
  ∧ o = Outcome [prompt_json (document_text Demo.demo_doc) (lit "fr")]
          (inr (Attachment (lit "output.json") (JsonFile (lit "NaN"))))
  ∧ delivered o = Some (JsonFile (lit "NaN")).
Proof. intros request o. by repeat split. Qed.

(** A POST with an unrecognised mode and an upload the library cannot
    parse: the initial read raises before the mode is looked at, and the
    response is not the index page. *)
Lemma unknown_mode_counterexample :
  let request := Demo.post (Demo.upload "a.pdf" [x00; x01]) "fr" "docx" in
  let o := @index Z (Demo.collaborators []) Demo.languages request in
  method request = POST
  ∧ form_mode request ≠ Some (lit "json")
  ∧ form_mode request ≠ Some (lit "pdf")
  ∧ form_mode request ≠ Some (lit "both")
  ∧ result o = inl FileDataError
  ∧ result o ≠ inr (Rendered (lit "index.html") Demo.languages).
Proof.
  intros request o. split; [reflexivity|].
  do 3 (split; [by vm_compute|]).
  split; [reflexivity|]. by vm_compute.
Qed.

(** The structured branch succeeds, the translation call of the rebuild
    branch fails: the request ends with that exception and no file. *)
Lemma both_mode_all_or_nothing_witness :
  let file := Demo.upload "a.pdf" Demo.pdf_magic in
  let request := Demo.post file "fr" "both" in
  let world := Demo.collaborators [Some (lit "{}"); None] in
  let o := @index Z world Demo.languages request in
  result o = inl GenerationError
  ∧ delivered o = None
  ∧ length (sent_prompts o) = 2.
Proof.
  intros file request world o.
  pose proof (@both_mode_all_or_nothing Z world Demo.languages request
                eq_refl eq_refl) as [Hshape Hbranches].
  split; [reflexivity|]. split; [exact Hshape|].
  destruct (Hbranches file Demo.demo_doc eq_refl) as [_ Hpdf].
  - by vm_compute.
  - reflexivity.
  - specialize (Hpdf _ _ _ GenerationError eq_refl eq_refl).
    fold o in Hpdf. by rewrite Hpdf.
Defined.

(** Both branches succeed: the archive holds the two files. *)
Example both_mode_success :
  let request :=
    Demo.post (Demo.upload "a.pdf" Demo.pdf_magic) "fr" "both" in
  let world :=
    Demo.collaborators
      [Some (lit "{}"); Some (lit "Hello" ++ nl :: lit "World")] in
  ∃ dumped out,
    result (@index Z world Demo.languages request)
    = inr (Attachment (lit "result.zip")
             (ZipFile [(lit "output.json", JsonFile dumped);
                       (lit "translated.pdf", PdfFile out)]))
    ∧ ops <$> out
      = [[add_redact_annot (72, 72, 300, 90)%Z (1, 1, 1)%N;
          add_redact_annot (72, 130, 300, 148)%Z (1, 1, 1)%N;
          apply_redactions;
          insert_text (72, 72)%Z (lit "Hello") (lit "helv") 10%N
                      (0, 0, 0)%N;
          insert_text (72, 130)%Z (lit "World") (lit "helv") 10%N
                      (0, 0, 0)%N]].
Proof. by eexists _, _. Qed.

(** An upload named like the output of the rebuild: the library is asked
    to save a document over the file it was opened from. *)
Example pdf_mode_same_name :
  result (@index Z (Demo.collaborators [Some (lit "Hello")]) Demo.languages
            (Demo.post (Demo.upload "translated.pdf" Demo.pdf_magic)
                       "fr" "pdf"))
  = inl SaveError.
Proof. reflexivity. Qed.

(** * Further properties *)

(** ** Start-up checks *)

(** X15. The check of src/app.py accepts exactly a key that is set and not
    empty, the check of src/config/settings.py exactly a key that is set;
    whatever the first accepts the second accepts, and the empty key is
    accepted by the second only. *)
Theorem startup_checks (GEMINI_API_KEY : option pystr) (key : pystr) :
  (app_startup GEMINI_API_KEY = Configured key
   ↔ GEMINI_API_KEY = Some key ∧ key ≠ [])
  ∧ (settings_startup GEMINI_API_KEY = Configured key
     ↔ GEMINI_API_KEY = Some key)
  ∧ (app_startup GEMINI_API_KEY = Configured key →
     settings_startup GEMINI_API_KEY = Configured key)
  ∧ settings_startup (Some []) = Configured []
  ∧ ∀ k, app_startup (Some []) ≠ Configured k.
Proof.
  assert (app_startup GEMINI_API_KEY = Configured key
          ↔ GEMINI_API_KEY = Some key ∧ key ≠ []) as Happ.
  { unfold app_startup. destruct GEMINI_API_KEY as [k|]; [|by split; [|intros []]].
    destruct k as [|c k]; simpl.
    - split; [done|]. by intros [[= <-] ?].
    - split; [by intros [= <-]|]. by intros [[= <-] _]. }
  assert (settings_startup GEMINI_API_KEY = Configured key
          ↔ GEMINI_API_KEY = Some key) as Hset.
  { unfold settings_startup. destruct GEMINI_API_KEY as [k|]; [|done].
    split; by intros [= <-]. }
  split; [done|]. split; [done|]. split.
  - intros [-> _]%Happ. by apply Hset.
  - done.
Qed.

(** ** Prompt templates *)

Lemma join_nl_snoc2 (lines : list pystr) (text : pystr) :
  lines ≠ [] →
  join_nl (lines ++ [text; []]) = join_nl lines ++ nl :: text ++ [nl].
Proof.
  induction lines as [|l ls IH]; [done|]. intros _.
  destruct ls as [|l' ls'].
  - reflexivity.
  - change (join_nl ((l :: l' :: ls') ++ [text; []]))
      with (l ++ nl :: join_nl ((l' :: ls') ++ [text; []])).
    rewrite IH by done.
    change (join_nl (l :: l' :: ls')) with (l ++ nl :: join_nl (l' :: ls')).
    by rewrite <- app_assoc.
Qed.

(** X1. In both templates the document text is the last thing of the
    prompt, verbatim and followed by one line break: for a language, the
    prompt is a fixed header, the text, a line break.  So different texts
    give different prompts, and the two templates never give the same
    prompt. *)
Theorem prompts_end_with_text (target_language : pystr) :
  (∃ header, ∀ text,
     prompt_json text target_language = header ++ text ++ [nl])
  ∧ (∃ header, ∀ text,
       prompt_translate text target_language = header ++ text ++ [nl])
  ∧ (∀ t1 t2,
       prompt_json t1 target_language = prompt_json t2 target_language →
       t1 = t2)
  ∧ (∀ t1 t2,
       prompt_translate t1 target_language
       = prompt_translate t2 target_language →
       t1 = t2)
  ∧ ∀ t1 t2 l2, prompt_json t1 target_language ≠ prompt_translate t2 l2.
Proof.
  assert (∃ header, ∀ text,
            prompt_json text target_language = header ++ text ++ [nl])
    as [hj Hj].
  { eexists. intros text. unfold prompt_json.
    match goal with
    | |- join_nl ?l = _ =>
        match l with
        | context C [[text; []]] =>
            let pre := eval cbv beta in
              ltac:(let c := context C [@nil pystr] in exact c) in
            change l with (pre ++ [text; []])
        end
    end.
    rewrite join_nl_snoc2 by done.
    rewrite (app_assoc _ [nl] (text ++ [nl])). reflexivity. }
  assert (∃ header, ∀ text,
            prompt_translate text target_language = header ++ text ++ [nl])
    as [ht Ht].
  { eexists. intros text. unfold prompt_translate.
    match goal with
    | |- join_nl ?l = _ =>
        match l with
        | context C [[text; []]] =>
            let pre := eval cbv beta in
              ltac:(let c := context C [@nil pystr] in exact c) in
            change l with (pre ++ [text; []])
        end
    end.
    rewrite join_nl_snoc2 by done.
    rewrite (app_assoc _ [nl] (text ++ [nl])). reflexivity. }
  split; [by exists hj|]. split; [by exists ht|]. split; [|split].
  - intros t1 t2. rewrite !Hj. intros H%app_inv_head.
    by apply app_inv_tail in H.
  - intros t1 t2. rewrite !Ht. intros H%app_inv_head.
    by apply app_inv_tail in H.
  - intros t1 t2 l2 H.
    apply (f_equal (λ p, p !! 1)) in H. discriminate H.
Qed.

(** ** More on joining, splitting and aligning *)

Lemma split_nl_app (a b : pystr) :
  split_nl (a ++ nl :: b) = split_nl a ++ split_nl b.
Proof.
  induction a as [|c a IH]; simpl; [done|].
  destruct (c =? nl)%N; [by rewrite IH|].
  rewrite IH.
  destruct (split_nl a) as [|l ls] eqn:Ha;
    [by destruct (split_nl_not_nil a)|].
  done.
Qed.

Lemma split_nl_one_line (s : pystr) : nl ∉ s → split_nl s = [s].
Proof.
  induction s as [|c s IH]; simpl; [done|]. intros Hc.
  apply not_elem_of_cons in Hc as [Hc Hs].
  destruct (c =? nl)%N eqn:E; [apply N.eqb_eq in E; congruence|].
  by rewrite IH.
Qed.

(** Splitting a join gives the lines back when no line holds a break. *)
Lemma split_join_nl (lines : list pystr) :
  lines ≠ [] →
  Forall (λ l, nl ∉ l) lines →
  split_nl (join_nl lines) = lines.
Proof.
  induction lines as [|l ls IH]; [done|]. intros _ Hall.
  inversion Hall as [|?? Hl Hls]; subst.
  destruct ls as [|l' ls'].
  - by apply split_nl_one_line.
  - change (join_nl (l :: l' :: ls')) with (l ++ nl :: join_nl (l' :: ls')).
    rewrite split_nl_app, split_nl_one_line, IH by done. done.
Qed.

(** Splitting a join gives the lines of all the parts, in order. *)
Lemma split_nl_join (lines : list pystr) :
  lines ≠ [] →
  split_nl (join_nl lines) = concat (split_nl <$> lines).
Proof.
  induction lines as [|l ls IH]; [done|]. intros _.
  destruct ls as [|l' ls'].
  - simpl. by rewrite app_nil_r.
  - change (join_nl (l :: l' :: ls')) with (l ++ nl :: join_nl (l' :: ls')).
    rewrite split_nl_app, IH by done. done.
Qed.

Lemma concat_split_nl_length (lines : list pystr) :
  length lines ≤ length (concat (split_nl <$> lines)).
Proof.
  induction lines as [|l ls IH]; [done|].
  rewrite fmap_cons. cbn [concat]. rewrite length_app. cbn [length].
  pose proof (split_nl_length l). lia.
Qed.

Section MoreAlignerProperties.

Context {coord : Type}.
Implicit Types (page_items aligned : list (@item coord)).
Implicit Types (blocks : list (@raw_block coord)).

(** X2. Lines of the translated text beyond the number of blocks are
    dropped without notice: whatever follows, after a line break, a text
    with at least as many lines as the page has blocks does not change the
    result. *)
Theorem aligner_drops_surplus_lines page_items
    (translated_text extra : pystr) :
  length page_items ≤ length (split_nl translated_text) →
  align page_items (translated_text ++ nl :: extra)
  = align page_items translated_text.
Proof.
  intros Hlen. rewrite !align_spec. f_equal.
  apply list_eq. intros i. rewrite !list_lookup_imap.
  destruct (page_items !! i) as [it|] eqn:Hit; [|done]. simpl.
  apply lookup_lt_Some in Hit.
  by rewrite split_nl_app, lookup_app_l by lia.
Qed.

(** X3. When the model answers with the page text unchanged, block [i]
    receives line [i] of the blocks' own lines taken together, not its own
    text.  Extracted block texts end in a line break: after a first block
    of one such line, the first block receives its line without the break
    and the second block receives the empty line. *)
Theorem aligner_echo_shifts page_items :
  page_items ≠ [] →
  ∃ aligned,
    align page_items (page_text_of page_items) = inr aligned
    ∧ (∀ i it, page_items !! i = Some it →
         ∃ line,
           concat (split_nl <$> (text <$> page_items)) !! i = Some line
           ∧ aligned !! i = Some (Item (bbox it) line))
    ∧ (∀ b0 l it1 rest,
         page_items = Item b0 (l ++ [nl]) :: it1 :: rest →
         nl ∉ l →
         aligned !! 0 = Some (Item b0 l)
         ∧ aligned !! 1 = Some (Item (bbox it1) [])).
Proof.
  intros Hne. eexists. split; [apply align_spec|].
  unfold page_text_of.
  rewrite split_nl_join by (by destruct page_items).
  assert (∀ i it, page_items !! i = Some it →
            ∃ line,
              concat (split_nl <$> (text <$> page_items)) !! i = Some line
              ∧ imap (λ i it, Item (bbox it)
                        (default (text it)
                           (concat (split_nl <$> (text <$> page_items))
                            !! i))) page_items !! i
                = Some (Item (bbox it) line)) as Hpos.
  { intros i it Hit.
    destruct (lookup_lt_is_Some_2
                (concat (split_nl <$> (text <$> page_items))) i)
      as [line Hline].
    { apply lookup_lt_Some in Hit.
      pose proof (concat_split_nl_length (text <$> page_items)) as Hlen.
      rewrite length_fmap in Hlen. lia. }
    exists line. split; [done|].
    by rewrite list_lookup_imap, Hit, Hline. }
  split; [exact Hpos|].
  intros b0 l it1 rest -> Hl.
  destruct (Hpos 0 _ eq_refl) as (l0 & Hl0 & ->).
  destruct (Hpos 1 _ eq_refl) as (l1 & Hl1 & ->).
  simpl in Hl0, Hl1.
  rewrite (split_nl_app l []), (split_nl_one_line l Hl) in Hl0, Hl1.
  simpl in Hl0, Hl1. injection Hl0 as <-. injection Hl1 as <-. done.
Qed.

(** A block text with a line break inside shifts the blocks after it. *)
Example aligner_identity_shifted (A B : @bbox_t coord) :
  let page_items := [Item A (lit "one" ++ nl :: lit "two");
                     Item B (lit "three")] in
  align page_items (page_text_of page_items)
  = inr [Item A (lit "one"); Item B (lit "two")].
Proof. reflexivity. Qed.

(** X4. Extractor and aligner composed: whatever the translated text, the
    aligned list of a page has one entry for each block of non-blank text,
    with that block's coordinates in the library's order; an entry has
    blank text only where the translated text has a blank line at the
    entry's index. *)
Theorem extracted_page_aligned blocks (translated_text : pystr) :
  ∃ aligned,
    align (extract_blocks blocks []) translated_text = inr aligned
    ∧ bbox <$> aligned
      = (λ b, (x0 b, y0 b, x1 b, y1 b))
        <$> filter (λ b, strip (block_text b) ≠ []) blocks
    ∧ ∀ i a, aligned !! i = Some a →
        strip (text a) = [] →
        ∃ line, split_nl translated_text !! i = Some line
                ∧ strip line = [].
Proof.
  eexists. split; [apply align_spec|]. split.
  - rewrite fmap_imap. rewrite extract_blocks_spec. simpl.
    rewrite imap_fmap.
    rewrite <- (imap_const (λ b, (x0 b, y0 b, x1 b, y1 b))).
    by apply imap_ext.
  - intros i a Ha Hblank. rewrite list_lookup_imap in Ha.
    rewrite extract_blocks_spec in Ha. simpl in Ha.
    rewrite list_lookup_fmap in Ha.
    destruct (filter _ blocks !! i) as [b|] eqn:Hb; [|done].
    simpl in Ha. injection Ha as <-. simpl in Hblank.
    apply list_elem_of_lookup_2, list_elem_of_filter in Hb as [Hnb _].
    destruct (split_nl translated_text !! i) as [line|]; simpl in *.
    + by exists line.
    + done.
Qed.

End MoreAlignerProperties.

Lemma aligner_drops_surplus_lines_witness :
  align [Item (72, 72, 300, 90)%Z (lit "Bonjour")]
        (lit "Hello" ++ nl :: lit "Here is the translation.")
  = inr [Item (72, 72, 300, 90)%Z (lit "Hello")].
Proof.
  rewrite (aligner_drops_surplus_lines
             [Item (72, 72, 300, 90)%Z (lit "Bonjour")]
             (lit "Hello") (lit "Here is the translation.")).
  - reflexivity.
  - simpl. lia.
Defined.

Lemma aligner_echo_shifts_witness :
  let page_items := [Item (72, 72, 300, 90)%Z (lit "Bonjour" ++ [nl]);
                     Item (72, 130, 300, 148)%Z (lit "le monde" ++ [nl])] in
  ∃ aligned,
    align page_items
          (lit "Bonjour" ++ [nl] ++ nl :: lit "le monde" ++ [nl])
    = inr aligned
    ∧ aligned !! 0 = Some (Item (72, 72, 300, 90)%Z (lit "Bonjour"))
    ∧ aligned !! 1 = Some (Item (72, 130, 300, 148)%Z []).
Proof.
  intros page_items.
  destruct (aligner_echo_shifts page_items) as (aligned & Hal & _ & Hreal).
  - done.
  - exists aligned. split; [exact Hal|].
    apply (Hreal _ (lit "Bonjour") _ [] eq_refl).
    apply (bool_decide_unpack _). by vm_compute.
Defined.

(** ** More on the rebuilder *)

Section MoreRebuilderProperties.

Context {coord : Type} `{!@Collaborators coord}.
Implicit Types (translated_texts : list (list (@item coord))).
Implicit Types (doc out : list (@pdf_page coord)).

(** With fewer block lists than pages, the page loop stops at the first
    page without one. *)
Lemma rebuild_pages_short translated_texts doc page_num done :
  page_num ≤ length translated_texts →
  length translated_texts < page_num + length doc →
  rebuild_pages translated_texts page_num doc done = inl IndexError.
Proof.
  revert page_num done.
  induction doc as [|p rest IH]; intros n done Hn Hlen; simpl in *; [lia|].
  unfold getitem.
  destruct (translated_texts !! n) as [items|] eqn:Hitems; [|done].
  simpl. apply lookup_lt_Some in Hitems. apply IH; lia.
Qed.

(** X5. With fewer block lists than the document has pages, the rebuilder
    raises [IndexError] (line 103) and writes nothing: the pages already
    treated are lost with the document. *)
Theorem rebuilder_too_few_pages (pdf_path output_path : pystr)
    translated_texts (f : file) doc (s : state) :
  tmpdir s !! pdf_path = Some f →
  fitz_parse pdf_path f = Some doc →
  length translated_texts < length doc →
  rebuild_pdf_with_translation pdf_path translated_texts output_path s
  = (s, inl IndexError).
Proof.
  intros Hf Hdoc Hlen. unfold rebuild_pdf_with_translation. run_steps.
  rewrite Hf, Hdoc. simpl.
  by rewrite rebuild_pages_short by (simpl; lia).
Qed.

(** X6. The rebuilder sends nothing to the remote model; when it raises,
    the temporary directory is as it was, and when it returns, only the
    file at the output path has changed. *)
Theorem rebuilder_writes_only_output (pdf_path output_path : pystr)
    translated_texts (s : state) :
  match rebuild_pdf_with_translation pdf_path translated_texts
          output_path s with
  | (s', inl _) => s' = s
  | (s', inr _) =>
      prompts s' = prompts s
      ∧ (∃ out, tmpdir s' !! output_path = Some (PdfFile out))
      ∧ ∀ path, path ≠ output_path → tmpdir s' !! path = tmpdir s !! path
  end.
Proof.
  unfold rebuild_pdf_with_translation. run_steps.
  destruct (tmpdir s !! pdf_path) as [f|]; [|done].
  destruct (fitz_parse pdf_path f) as [doc|]; [|done]. simpl.
  destruct (rebuild_pages translated_texts 0 doc []) as [e|out]; [done|].
  destruct (fitz_save_ok pdf_path output_path out); [|done].
  simpl. split; [done|]. split.
  - exists out. apply lookup_insert_eq.
  - intros path Hne. by apply lookup_insert_ne.
Qed.

End MoreRebuilderProperties.

Lemma rebuilder_too_few_pages_witness :
  let s := State {[ lit "a.pdf" := Upload Demo.pdf_magic ]} [] in
  @rebuild_pdf_with_translation Z (Demo.collaborators [])
    (lit "a.pdf") [] (lit "translated.pdf") s
  = (s, inl IndexError).
Proof.
  intros s.
  apply (@rebuilder_too_few_pages Z (Demo.collaborators [])
           (lit "a.pdf") (lit "translated.pdf") []
           (Upload Demo.pdf_magic) Demo.demo_doc s).
  - reflexivity.
  - reflexivity.
  - simpl. lia.
Defined.

(** ** More on the handler *)

Section MoreHandlerProperties.

Context {coord : Type} `{!@Collaborators coord}.
Implicit Types (request : request_t) (file : file_storage).
Implicit Types (s : @state coord) (doc out : list (@pdf_page coord)).
Implicit Types (LANGUAGES : json) (tl text : pystr).
Implicit Types (pages : list (list (@item coord))).

Lemma extract_pages_map doc :
  extract_pages doc []
  = (λ page, extract_blocks (get_text_blocks page) []) <$> doc.
Proof.
  rewrite extract_pages_spec. simpl. apply list_fmap_ext.
  intros _ page _. by rewrite extract_blocks_spec.
Qed.

Lemma rebuild_pages_rect (translated_texts : list (list item)) doc out :
  rebuild_pages translated_texts 0 doc [] = inr out →
  length out = length doc ∧ rect <$> out = rect <$> doc.
Proof.
  intros Hrun. apply rebuild_pages_inv in Hrun as (Hl & _ & Hpages).
  simpl in *. split; [done|].
  apply list_eq. intros n. rewrite !list_lookup_fmap.
  destruct (doc !! n) as [page|] eqn:Hn.
  - destruct (Hpages n page Hn) as (items & _ & ->). simpl.
    by rewrite rebuild_page_spec.
  - rewrite (lookup_ge_None_2 out n); [done|].
    apply lookup_ge_None_1 in Hn. lia.
Qed.

(** The translation loop, call by call: it asks for the pages in order and
    stops at the first call that fails. *)
Lemma translate_pages_cases tl pages (translated_pages : list (list item))
    s :
  ∃ m r,
    translate_pages tl pages translated_pages s
    = (State (tmpdir s)
         (prompts s ++
          take m ((λ items, prompt_translate (page_text_of items) tl)
                  <$> pages)), r)
    ∧ m ≤ length pages
    ∧ match r with
      | inl e =>
          e = GenerationError
          ∧ ∃ k items,
              m = S k ∧ pages !! k = Some items
              ∧ generate_content (length (prompts s) + k)
                  (prompt_translate (page_text_of items) tl) = None
      | inr translated =>
          m = length pages
          ∧ ∃ tr,
              translated = translated_pages ++ tr
              ∧ length tr = length pages
              ∧ ∀ k items, pages !! k = Some items →
                  ∃ answer aligned,
                    generate_content (length (prompts s) + k)
                      (prompt_translate (page_text_of items) tl)
                    = Some answer
                    ∧ align items answer = inr aligned
                    ∧ tr !! k = Some aligned
      end.
Proof.
  revert translated_pages s.
  induction pages as [|items rest IH]; intros acc s.
  - exists 0, (inr acc). simpl. rewrite app_nil_r.
    split; [by destruct s|]. split; [done|]. split; [done|].
    exists []. rewrite app_nil_r. by repeat split.
  - simpl. rewrite mbind_run. unfold call_gemini at 1.
    fold (page_text_of items).
    set (p := prompt_translate (page_text_of items) tl).
    destruct (generate_content (length (prompts s)) p) as [answer|] eqn:Hgen.
    + rewrite mbind_run. unfold lift.
      destruct (align items answer) as [e|aligned] eqn:Hal;
        [by rewrite align_spec in Hal|].
      destruct (IH (acc ++ [aligned])
                  (State (tmpdir s) (prompts s ++ [p])))
        as (m & r & -> & Hm & Hr).
      exists (S m), r. simpl. rewrite <- app_assoc. simpl.
      split; [done|]. split; [lia|].
      destruct r as [e|translated].
      * destruct Hr as (-> & k & its & -> & Hk & Hnone). split; [done|].
        exists (S k), its. split; [done|]. split; [done|].
        simpl in Hnone. rewrite length_app in Hnone. simpl in Hnone.
        by replace (length (prompts s) + S k)
          with (length (prompts s) + 1 + k) by lia.
      * destruct Hr as (-> & tr & -> & Hlen & Hlook). split; [done|].
        exists (aligned :: tr). rewrite <- app_assoc. simpl.
        split; [done|]. split; [by rewrite Hlen|].
        intros [|k] its Hits; simpl in Hits.
        -- injection Hits as <-. exists answer, aligned.
           by rewrite Nat.add_0_r.
        -- destruct (Hlook k its Hits) as (a & al & Hg & Ha & Ht).
           exists a, al. simpl in Hg. rewrite length_app in Hg.
           simpl in Hg.
           by replace (length (prompts s) + S k)
             with (length (prompts s) + 1 + k) by lia.
    + exists 1, (inl GenerationError). simpl. rewrite take_0.
      split; [done|]. split; [lia|]. split; [done|].
      exists 0, items. by rewrite Nat.add_0_r.
Qed.

Lemma pdf_branch_no_file (path : pystr) tl s :
  tmpdir s !! path = None →
  pdf_branch path tl s = (s, inl FileNotFoundError).
Proof.
  intros Hf. unfold pdf_branch, extract_text_with_positions. run_steps.
  by rewrite Hf.
Qed.

Lemma pdf_branch_unparseable (path : pystr) tl s (f : file) :
  tmpdir s !! path = Some f →
  fitz_parse path f = None →
  pdf_branch path tl s = (s, inl FileDataError).
Proof.
  intros Hf Hdoc. unfold pdf_branch, extract_text_with_positions. run_steps.
  by rewrite Hf, Hdoc.
Qed.

(** The rebuild branch on a file that parses: which prompts it sends, how
    it can fail, and what it writes. *)
Lemma pdf_branch_cases (path : pystr) tl s (f : file) doc :
  tmpdir s !! path = Some f →
  fitz_parse path f = Some doc →
  ∃ m s' r,
    pdf_branch path tl s = (s', r)
    ∧ prompts s' = prompts s ++ take m (page_prompt tl <$> doc)
    ∧ m ≤ length doc
    ∧ match r with
      | inl e =>
          tmpdir s' = tmpdir s
          ∧ ((e = GenerationError
              ∧ ∃ k page,
                  m = S k ∧ doc !! k = Some page
                  ∧ generate_content (length (prompts s) + k)
                      (page_prompt tl page) = None)
             ∨ (e = SaveError ∧ m = length doc
                ∧ ∃ out,
                    length out = length doc
                    ∧ fitz_save_ok path (lit "translated.pdf") out = false))
      | inr output_pdf_path =>
          output_pdf_path = lit "translated.pdf"
          ∧ m = length doc
          ∧ ∃ out,
              tmpdir s' = <[lit "translated.pdf" := PdfFile out]> (tmpdir s)
              ∧ fitz_save_ok path (lit "translated.pdf") out = true
              ∧ length out = length doc
              ∧ rect <$> out = rect <$> doc
              ∧ ∀ k page, doc !! k = Some page →
                  ∃ answer aligned,
                    generate_content (length (prompts s) + k)
                      (page_prompt tl page) = Some answer
                    ∧ align (extract_blocks (get_text_blocks page) [])
                        answer = inr aligned
                    ∧ out !! k = Some (rebuild_page aligned page)
      end.
Proof.
  intros Hf Hdoc.
  assert (extract_text_with_positions path s
          = (s, inr (extract_pages doc []))) as Hext.
  { unfold extract_text_with_positions. run_steps. by rewrite Hf, Hdoc. }
  unfold pdf_branch. rewrite mbind_run, Hext, mbind_run.
  rewrite extract_pages_map.
  destruct (translate_pages_cases tl
              ((λ page, extract_blocks (get_text_blocks page) []) <$> doc)
              [] s) as (m & r & -> & Hm & Hr).
  rewrite <- list_fmap_compose in *. rewrite length_fmap in Hm.
  change ((λ items : list item, prompt_translate (page_text_of items) tl)
          ∘ (λ page : pdf_page, extract_blocks (get_text_blocks page) []))
    with (@page_prompt coord tl) in *.
  exists m. destruct r as [e|translated].
  - destruct Hr as (-> & k & items & -> & Hk & Hnone).
    eexists _, _. split; [done|]. simpl. split; [done|]. split; [done|].
    split; [done|]. left. split; [done|].
    rewrite list_lookup_fmap in Hk.
    destruct (doc !! k) as [page|] eqn:Hpage; [|done].
    simpl in Hk. injection Hk as <-. by exists k, page.
  - rewrite !length_fmap in Hr.
    destruct Hr as (-> & tr & -> & Hlen & Hlook). simpl.
    destruct (rebuild_pages_total tr doc 0 []) as [out Hrun];
      [simpl; lia|].
    pose proof (rebuild_pages_rect _ _ _ Hrun) as [Hl Hrect].
    set (s1 := State (tmpdir s)
                 (prompts s ++ take (length doc) (page_prompt tl <$> doc))).
    assert (rebuild_pdf_with_translation path tr (lit "translated.pdf") s1
            = if fitz_save_ok path (lit "translated.pdf") out
              then (State (<[lit "translated.pdf" := PdfFile out]> (tmpdir s))
                          (prompts s1), inr ())
              else (s1, inl SaveError)) as Hreb.
    { unfold rebuild_pdf_with_translation. run_steps.
      rewrite Hf, Hdoc. simpl. rewrite Hrun.
      by destruct (fitz_save_ok path (lit "translated.pdf") out). }
    rewrite mbind_run, Hreb.
    destruct (fitz_save_ok path (lit "translated.pdf") out) eqn:Hsave.
    + eexists _, _. split; [done|]. simpl. split; [done|]. split; [done|].
      split; [done|]. split; [done|]. exists out.
      split; [done|]. split; [done|]. split; [done|]. split; [done|].
      intros k page Hpage.
      destruct (Hlook k (extract_blocks (get_text_blocks page) []))
        as (answer & aligned & Hg & Ha & Ht).
      { by rewrite list_lookup_fmap, Hpage. }
      exists answer, aligned. split; [done|]. split; [done|].
      apply rebuild_pages_inv in Hrun as (_ & _ & Hpages).
      destruct (Hpages k page Hpage) as (items & Hitems & Hout).
      simpl in *. rewrite Ht in Hitems. by injection Hitems as <-.
    + eexists _, _. split; [done|]. simpl. split; [done|]. split; [done|].
      split; [done|]. right. split; [done|]. split; [done|]. by exists out.
Qed.

Lemma page_prompts_translate tl doc m :
  Forall (λ p, ∃ t, p = prompt_translate t tl)
         (take m (page_prompt tl <$> doc)).
Proof.
  apply Forall_take, Forall_fmap, Forall_forall.
  intros page _. by eexists.
Qed.

(** *** The chain, mode by mode *)

Lemma dispatch_json_run (input_pdf_path : pystr) text tl s :
  dispatch (Some (lit "json")) input_pdf_path text tl s
  = let asked := prompts s ++ [prompt_json text tl] in
    let json_path := lit "output.json" in
    match generate_content (length (prompts s)) (prompt_json text tl) with
    | None => (State (tmpdir s) asked, inl GenerationError)
    | Some gemini_output =>
        match json_loads gemini_output with
        | None => (State (tmpdir s) asked, inl JSONDecodeError)
        | Some json_data =>
            match json_dump json_data with
            | None =>
                (State (<[json_path := JsonFile []]> (tmpdir s)) asked,
                 inl UnicodeEncodeError)
            | Some dumped =>
                (State (<[json_path := JsonFile dumped]>
                          (<[json_path := JsonFile []]> (tmpdir s))) asked,
                 inr (Some (Attachment json_path (JsonFile dumped))))
            end
        end
    end.
Proof.
  unfold dispatch. rewrite bool_decide_eq_true_2 by done.
  rewrite mbind_run, json_branch_run. simpl.
  destruct (generate_content _ _) as [gemini_output|]; [|done].
  destruct (json_loads gemini_output) as [json_data|]; [|done].
  destruct (json_dump json_data) as [dumped|]; [|done].
  unfold send_file. run_steps. by rewrite lookup_insert_eq.
Qed.

Lemma dispatch_pdf_run (input_pdf_path : pystr) text tl s :
  dispatch (Some (lit "pdf")) input_pdf_path text tl s
  = match pdf_branch input_pdf_path tl s with
    | (s1, inl e) => (s1, inl e)
    | (s1, inr output_pdf_path) =>
        mbind (send_file output_pdf_path) (λ r, mret (Some r)) s1
    end.
Proof.
  unfold dispatch.
  rewrite bool_decide_eq_false_2 by (by vm_compute).
  rewrite bool_decide_eq_true_2 by done.
  reflexivity.
Qed.

Lemma send_written (path : pystr) (f : file) s :
  tmpdir s !! path = Some f →
  mbind (send_file path) (λ r, mret (Some r)) s
  = (s, inr (Some (Attachment path f))).
Proof. intros Hf. unfold send_file. run_steps. by rewrite Hf. Qed.

(** The chain in [pdf] mode on a file that parses. *)
Lemma dispatch_pdf_cases (path : pystr) text tl s (f : file) doc :
  tmpdir s !! path = Some f →
  fitz_parse path f = Some doc →
  ∃ m s' r,
    dispatch (Some (lit "pdf")) path text tl s = (s', r)
    ∧ prompts s' = prompts s ++ take m (page_prompt tl <$> doc)
    ∧ m ≤ length doc
    ∧ match r with
      | inl e =>
          (e = GenerationError
           ∧ ∃ k page,
               m = S k ∧ doc !! k = Some page
               ∧ generate_content (length (prompts s) + k)
                   (page_prompt tl page) = None)
          ∨ (e = SaveError ∧ m = length doc
             ∧ ∃ out,
                 length out = length doc
                 ∧ fitz_save_ok path (lit "translated.pdf") out = false)
      | inr o =>
          m = length doc
          ∧ ∃ out,
              o = Some (Attachment (lit "translated.pdf") (PdfFile out))
              ∧ fitz_save_ok path (lit "translated.pdf") out = true
              ∧ length out = length doc
              ∧ rect <$> out = rect <$> doc
              ∧ ∀ k page, doc !! k = Some page →
                  ∃ answer aligned,
                    generate_content (length (prompts s) + k)
                      (page_prompt tl page) = Some answer
                    ∧ align (extract_blocks (get_text_blocks page) [])
                        answer = inr aligned
                    ∧ out !! k = Some (rebuild_page aligned page)
      end.
Proof.
  intros Hf Hdoc. rewrite dispatch_pdf_run.
  destruct (pdf_branch_cases path tl s f doc Hf Hdoc)
    as (m & s' & r & -> & Hp & Hm & Hr).
  exists m. destruct r as [e|output_pdf_path].
  - exists s', (inl e). destruct Hr as [_ Hr]. by repeat split.
  - destruct Hr as (-> & -> & out & Hdir & Hsave & Hl & Hrect & Hpages).
    rewrite (send_written _ (PdfFile out))
      by (rewrite Hdir; apply lookup_insert_eq).
    exists s', (inr (Some (Attachment (lit "translated.pdf") (PdfFile out)))).
    split; [done|]. split; [done|]. split; [done|]. split; [done|].
    by exists out.
Qed.

(** The chain in [both] mode, with a file at the input path. *)
Lemma dispatch_both_cases (path : pystr) text tl s :
  is_Some (tmpdir s !! path) →
  ∃ rest s' r,
    dispatch (Some (lit "both")) path text tl s = (s', r)
    ∧ prompts s' = prompts s ++ prompt_json text tl :: rest
    ∧ Forall (λ p, ∃ t, p = prompt_translate t tl) rest
    ∧ (∀ s2 e, json_branch text tl s = (s2, inl e) → rest = [])
    ∧ match r with
      | inl e =>
          e = GenerationError ∨ e = JSONDecodeError
          ∨ e = UnicodeEncodeError ∨ e = FileDataError ∨ e = SaveError
      | inr o =>
          ∃ dumped out,
            o = Some (Attachment (lit "result.zip")
                        (ZipFile [(lit "output.json", JsonFile dumped);
                                  (lit "translated.pdf", PdfFile out)]))
      end.
Proof.
  intros Hsome. rewrite dispatch_both_run, json_branch_run. simpl.
  destruct (generate_content _ _) as [gemini_output|];
    [|exists []; eexists _, _; by repeat split; auto].
  destruct (json_loads gemini_output) as [json_data|];
    [|exists []; eexists _, _; by repeat split; auto].
  destruct (json_dump json_data) as [dumped|];
    [|exists []; eexists _, _; by repeat split; auto].
  set (s2 := State _ _).
  assert (tmpdir s2 !! lit "output.json" = Some (JsonFile dumped)) as Hjson
    by apply lookup_insert_eq.
  assert (prompts s2 = prompts s ++ [prompt_json text tl]) as Hp2 by done.
  assert (∃ f, tmpdir s2 !! path = Some f) as [f Hf].
  { destruct (decide (lit "output.json" = path)) as [<-|Hne]; [by eexists|].
    destruct Hsome as [f0 Hf0]. exists f0. subst s2. simpl.
    by rewrite !lookup_insert_ne. }
  destruct (fitz_parse path f) as [doc|] eqn:Hdoc.
  - destruct (pdf_branch_cases path tl s2 f doc Hf Hdoc)
      as (m & s3 & r & -> & Hp & _ & Hr).
    exists (take m (page_prompt tl <$> doc)).
    destruct r as [e|output_pdf_path].
    + exists s3, (inl e). split; [done|].
      split; [by rewrite Hp, Hp2, <- app_assoc|].
      split; [apply page_prompts_translate|]. split; [by intros ?? [=]|].
      destruct Hr as [_ [[-> _]|[-> _]]]; auto.
    + destruct Hr as (-> & _ & out & Hdir & _).
      edestruct (zip_send (JsonFile dumped) (PdfFile out) s3)
        as (s' & -> & Hp').
      * rewrite Hdir, (lookup_insert_ne _ _ _ _ (not_eq_sym json_not_pdf)).
        exact Hjson.
      * rewrite Hdir. apply lookup_insert_eq.
      * exists s', (inr (Some (Attachment (lit "result.zip")
                            (ZipFile [(lit "output.json", JsonFile dumped);
                                      (lit "translated.pdf", PdfFile out)])))).
        split; [done|].
        split; [by rewrite Hp', Hp, Hp2, <- app_assoc|].
        split; [apply page_prompts_translate|]. split; [by intros ?? [=]|].
        by exists dumped, out.
  - rewrite (pdf_branch_unparseable _ _ _ _ Hf Hdoc).
    exists [], s2, (inl FileDataError). split; [done|].
    split; [done|]. split; [done|]. split; [by intros ?? [=]|]. auto.
Qed.

(** *** Saving and reading the upload, case by case *)

Lemma index_post_cases request :
  (files_file request = None
   ∧ index_post request (State ∅ []) = (State ∅ [], inl BadRequestKeyError))
  ∨ (∃ file,
       files_file request = Some file
       ∧ secure_filename (filename file) = []
       ∧ index_post request (State ∅ [])
         = (State ∅ [], inl IsADirectoryError))
  ∨ (∃ file,
       files_file request = Some file
       ∧ secure_filename (filename file) ≠ []
       ∧ fitz_parse (secure_filename (filename file)) (Upload (stream file))
         = None
       ∧ index_post request (State ∅ [])
         = (saved_upload file, inl FileDataError))
  ∨ (∃ file doc,
       files_file request = Some file
       ∧ secure_filename (filename file) ≠ []
       ∧ fitz_parse (secure_filename (filename file)) (Upload (stream file))
         = Some doc
       ∧ index_post request (State ∅ [])
         = dispatch (form_mode request) (secure_filename (filename file))
             (document_text doc) (target_language_of request)
             (saved_upload file)).
Proof.
  destruct (files_file request) as [file|] eqn:Hfile;
    [|left; by rewrite index_post_no_file].
  right.
  destruct (decide (secure_filename (filename file) = [])) as [Hname|Hname];
    [left; exists file; by rewrite (index_post_no_name _ file)|].
  right.
  destruct (fitz_parse (secure_filename (filename file))
              (Upload (stream file))) as [doc|] eqn:Hparse.
  - right. exists file, doc.
    by rewrite (index_post_read _ _ _ Hfile Hname Hparse).
  - left. exists file. by rewrite (index_post_unparseable _ file).
Qed.

Lemma saved_upload_lookup file :
  tmpdir (saved_upload file) !! secure_filename (filename file)
  = Some (Upload (stream file)).
Proof. apply lookup_insert_eq. Qed.

Lemma dispatch_unknown (user_choice : option pystr)
    (path : pystr) text tl s :
  user_choice ≠ Some (lit "json") →
  user_choice ≠ Some (lit "pdf") →
  user_choice ≠ Some (lit "both") →
  dispatch user_choice path text tl s = (s, inr None).
Proof.
  intros Hj Hp Hb. unfold dispatch.
  by rewrite !bool_decide_eq_false_2 by done.
Qed.

(** *** Properties of whole requests *)

(** X10. In [json] mode, once the upload is read, exactly one prompt is
    sent, built from the text of all pages; the outcome is the failure of
    the model call, of [json.loads] or of [json.dump], or else the file
    [output.json] holding the dump of what [json.loads] returned. *)
Theorem json_mode_outcome LANGUAGES request file doc :
  method request = POST →
  files_file request = Some file →
  form_mode request = Some (lit "json") →
  secure_filename (filename file) ≠ [] →
  fitz_parse (secure_filename (filename file)) (Upload (stream file))
  = Some doc →
  let prompt :=
    prompt_json (document_text doc) (target_language_of request) in
  index LANGUAGES request
  = Outcome [prompt]
      match generate_content 0 prompt with
      | None => inl GenerationError
      | Some gemini_output =>
          match json_loads gemini_output with
          | None => inl JSONDecodeError
          | Some json_data =>
              match json_dump json_data with
              | None => inl UnicodeEncodeError
              | Some dumped =>
                  inr (Attachment (lit "output.json") (JsonFile dumped))
              end
          end
      end.
Proof.
  intros Hm Hfile Hmode Hname Hparse prompt. unfold index.
  rewrite Hm, (index_post_read _ _ _ Hfile Hname Hparse), Hmode.
  rewrite dispatch_json_run. simpl. fold prompt.
  destruct (generate_content 0 prompt) as [gemini_output|]; [|done].
  destruct (json_loads gemini_output) as [json_data|]; [|done].
  by destruct (json_dump json_data).
Qed.


(** X8. In [pdf] mode the request succeeds whenever the upload is read,
    every page's call is answered and the library accepts to save: the
    handler itself adds no failure, in particular the rebuilder always
    finds a block list for every page. *)
Theorem pdf_mode_succeeds LANGUAGES request file doc :
  method request = POST →
  files_file request = Some file →
  form_mode request = Some (lit "pdf") →
  secure_filename (filename file) ≠ [] →
  fitz_parse (secure_filename (filename file)) (Upload (stream file))
  = Some doc →
  (∀ k page, doc !! k = Some page →
     is_Some (generate_content k
                (page_prompt (target_language_of request) page))) →
  (∀ out, length out = length doc →
     fitz_save_ok (secure_filename (filename file)) (lit "translated.pdf")
       out = true) →
  ∃ out,
    index LANGUAGES request
    = Outcome (page_prompt (target_language_of request) <$> doc)
        (inr (Attachment (lit "translated.pdf") (PdfFile out)))
    ∧ length out = length doc.
Proof.
  intros Hm Hfile Hmode Hname Hparse Hans Hsave. unfold index.
  rewrite Hm, (index_post_read _ _ _ Hfile Hname Hparse), Hmode.
  destruct (dispatch_pdf_cases _ (document_text doc)
              (target_language_of request) _ _ _
              (saved_upload_lookup file) Hparse)
    as (m & s' & r & -> & Hp & Hle & Hr).
  simpl in Hp, Hr. destruct r as [e|o].
  - exfalso.
    destruct Hr as [(_ & k & page & _ & Hk & Hnone)
                   |(_ & _ & out & Hl & Hno)].
    + destruct (Hans k page Hk) as [a Ha]. congruence.
    + rewrite (Hsave out Hl) in Hno. discriminate.
  - destruct Hr as (-> & out & -> & _ & Hl & _).
    exists out. rewrite Hp, take_ge by (by rewrite length_fmap). done.
Qed.

(** X11. In [both] mode, once the upload is read, the structured prompt is
    sent first and every later prompt is a translation prompt; when the
    structured branch raises, no translation prompt is sent at all. *)
Theorem both_mode_prompt_order LANGUAGES request file doc :
  method request = POST →
  files_file request = Some file →
  form_mode request = Some (lit "both") →
  secure_filename (filename file) ≠ [] →
  fitz_parse (secure_filename (filename file)) (Upload (stream file))
  = Some doc →
  let tl := target_language_of request in
  let text := document_text doc in
  ∃ rest,
    sent_prompts (index LANGUAGES request) = prompt_json text tl :: rest
    ∧ Forall (λ p, ∃ t, p = prompt_translate t tl) rest
    ∧ (∀ s2 e,
         json_branch text tl (saved_upload file) = (s2, inl e) →
         index LANGUAGES request = Outcome [prompt_json text tl] (inl e)).
Proof.
  intros Hm Hfile Hmode Hname Hparse tl text. unfold index.
  rewrite Hm, (index_post_read _ _ _ Hfile Hname Hparse), Hmode.
  fold tl text.
  destruct (dispatch_both_cases (secure_filename (filename file)) text tl
              (saved_upload file))
    as (rest & s' & r & Hrun & Hp & Hrest & Hfail & _).
  { rewrite saved_upload_lookup. by eexists. }
  simpl in Hp. exists rest. split; [|split; [done|]].
  - rewrite Hrun. by destruct r as [e|[r|]].
  - intros s2 e Hjson. rewrite dispatch_both_run, Hjson.
    rewrite json_branch_run in Hjson. simpl in Hjson.
    destruct (generate_content _ _) as [gemini_output|];
      [|by injection Hjson as <- <-].
    destruct (json_loads gemini_output) as [json_data|];
      [|by injection Hjson as <- <-].
    destruct (json_dump json_data) as [dumped|];
      [done|by injection Hjson as <- <-].
Qed.

(** X12. In [both] mode an upload whose sanitised name is [output.json] is
    overwritten by the structured branch before the rebuild branch opens
    it: the rebuild branch is given the dumped JSON, and when the library
    cannot parse that, the request fails although the upload itself had
    parsed. *)
Theorem both_mode_upload_named_output_json LANGUAGES request file doc
    (gemini_output dumped : pystr) (json_data : json) :
  method request = POST →
  files_file request = Some file →
  form_mode request = Some (lit "both") →
  secure_filename (filename file) = lit "output.json" →
  fitz_parse (lit "output.json") (Upload (stream file)) = Some doc →
  let prompt :=
    prompt_json (document_text doc) (target_language_of request) in
  generate_content 0 prompt = Some gemini_output →
  json_loads gemini_output = Some json_data →
  json_dump json_data = Some dumped →
  fitz_parse (lit "output.json") (JsonFile dumped) = None →
  index LANGUAGES request = Outcome [prompt] (inl FileDataError).
Proof.
  intros Hm Hfile Hmode Hname Hparse prompt Hgen Hloads Hdump Hjson.
  assert (secure_filename (filename file) ≠ []) as Hne
    by (rewrite Hname; by vm_compute).
  rewrite <- Hname in Hparse. unfold index.
  rewrite Hm, (index_post_read _ _ _ Hfile Hne Hparse), Hmode.
  rewrite dispatch_both_run, json_branch_run. simpl. fold prompt.
  rewrite Hgen, Hloads, Hdump, Hname.
  erewrite pdf_branch_unparseable; [done| |exact Hjson].
  apply lookup_insert_eq.
Qed.

(** X13. A prompt goes to the remote model only for a POST that carries the
    file part under a non-empty sanitised name, whose upload the library
    parses, and whose mode is one of [json], [pdf], [both]. *)
Theorem prompts_need_readable_upload LANGUAGES request :
  sent_prompts (index LANGUAGES request) ≠ [] →
  method request = POST
  ∧ ∃ file doc,
      files_file request = Some file
      ∧ secure_filename (filename file) ≠ []
      ∧ fitz_parse (secure_filename (filename file)) (Upload (stream file))
        = Some doc
      ∧ (form_mode request = Some (lit "json")
         ∨ form_mode request = Some (lit "pdf")
         ∨ form_mode request = Some (lit "both")).
Proof.
  unfold index. destruct (method request); try done.
  destruct (index_post_cases request)
    as [[_ ->]|[(file & _ & _ & ->)|[(file & _ & _ & _ & ->)
       |(file & doc & Hfile & Hname & Hparse & ->)]]]; try done.
  intros Hsent. split; [done|]. exists file, doc.
  split; [done|]. split; [done|]. split; [done|].
  destruct (decide (form_mode request = Some (lit "json"))); [by left|].
  destruct (decide (form_mode request = Some (lit "pdf")));
    [by right; left|].
  destruct (decide (form_mode request = Some (lit "both")));
    [by right; right|].
  by rewrite dispatch_unknown in Hsent.
Qed.

(** X14. What a request answers with is fixed by its method and mode: the
    index page without POST or with an unrecognised mode, and otherwise
    only [output.json] with JSON text in [json] mode, only
    [translated.pdf] with a PDF document in [pdf] mode, only the archive
    of the two in [both] mode. *)
Theorem response_by_mode LANGUAGES request :
  match result (index LANGUAGES request) with
  | inl _ => True
  | inr r =>
      (r = Rendered (lit "index.html") LANGUAGES
       ∧ (method request ≠ POST
          ∨ (form_mode request ≠ Some (lit "json")
             ∧ form_mode request ≠ Some (lit "pdf")
             ∧ form_mode request ≠ Some (lit "both"))))
      ∨ (method request = POST
         ∧ ((form_mode request = Some (lit "json")
             ∧ ∃ dumped,
                 r = Attachment (lit "output.json") (JsonFile dumped))
            ∨ (form_mode request = Some (lit "pdf")
               ∧ ∃ out,
                   r = Attachment (lit "translated.pdf") (PdfFile out))
            ∨ (form_mode request = Some (lit "both")
               ∧ ∃ dumped out,
                   r = Attachment (lit "result.zip")
                         (ZipFile
                            [(lit "output.json", JsonFile dumped);
                             (lit "translated.pdf", PdfFile out)]))))
  end.
Proof.
  unfold index. destruct (method request) eqn:Hm;
    try (simpl; left; split; [done|by left]).
  destruct (index_post_cases request)
    as [[_ ->]|[(file & _ & _ & ->)|[(file & _ & _ & _ & ->)
       |(file & doc & Hfile & Hname & Hparse & ->)]]]; try done.
  destruct (decide (form_mode request = Some (lit "json"))) as [Hj|Hj].
  { rewrite Hj, dispatch_json_run. simpl.
    destruct (generate_content _ _) as [gemini_output|]; simpl; [|done].
    destruct (json_loads gemini_output) as [json_data|]; simpl; [|done].
    destruct (json_dump json_data) as [dumped|]; simpl; [|done].
    right. split; [done|]. left. split; [done|]. by exists dumped. }
  destruct (decide (form_mode request = Some (lit "pdf"))) as [Hp|Hp].
  { rewrite Hp.
    destruct (dispatch_pdf_cases _ (document_text doc)
                (target_language_of request) _ _ _
                (saved_upload_lookup file) Hparse)
      as (m & s' & r & -> & _ & _ & Hr).
    destruct r as [e|[r|]]; simpl; [done| |by destruct Hr as (_ & ? & [=] & _)].
    destruct Hr as (_ & out & [= ->] & _).
    right. split; [done|]. right. left. split; [done|]. by exists out. }
  destruct (decide (form_mode request = Some (lit "both"))) as [Hb|Hb].
  { rewrite Hb.
    destruct (dispatch_both_cases (secure_filename (filename file))
                (document_text doc) (target_language_of request)
                (saved_upload file))
      as (rest & s' & r & -> & _ & _ & _ & Hr).
    { rewrite saved_upload_lookup. by eexists. }
    destruct r as [e|[r|]]; simpl; [done| |by destruct Hr as (? & ? & [=])].
    destruct Hr as (dumped & out & [= ->]).
    right. split; [done|]. right. right. split; [done|].
    by exists dumped, out. }
  rewrite dispatch_unknown by done. simpl.
  left. split; [done|]. by right.
Qed.

End MoreHandlerProperties.

(** *** Runs in the concrete world, continued *)

Lemma json_mode_outcome_witness :
  let request := Demo.post (Demo.upload "a.pdf" Demo.pdf_magic) "fr" "json" in
  @index Z (Demo.collaborators [Some (lit "{}")]) Demo.languages request
  = Outcome [prompt_json (document_text Demo.demo_doc) (lit "fr")]
      (inr (Attachment (lit "output.json") (JsonFile (lit "{}")))).
Proof.
  intros request.
  rewrite (@json_mode_outcome Z (Demo.collaborators [Some (lit "{}")])
             Demo.languages request
             (Demo.upload "a.pdf" Demo.pdf_magic) Demo.demo_doc).
  - reflexivity.
  - reflexivity.
  - reflexivity.
  - reflexivity.
  - by vm_compute.
  - reflexivity.
Defined.


Lemma pdf_mode_succeeds_witness :
  let request := Demo.post (Demo.upload "a.pdf" Demo.pdf_magic) "fr" "pdf" in
  let world := Demo.collaborators [Some (lit "Hello" ++ nl :: lit "World")] in
  ∃ out,
    @index Z world Demo.languages request
    = Outcome (page_prompt (lit "fr") <$> Demo.demo_doc)
        (inr (Attachment (lit "translated.pdf") (PdfFile out)))
    ∧ length out = 1.
Proof.
  intros request world.
  apply (@pdf_mode_succeeds Z world Demo.languages request
           (Demo.upload "a.pdf" Demo.pdf_magic) Demo.demo_doc).
  - reflexivity.
  - reflexivity.
  - reflexivity.
  - by vm_compute.
  - reflexivity.
  - intros [|k] page Hk; [by eexists|done].
  - intros out Hl. cbn. apply andb_true_intro.
    split; apply bool_decide_eq_true_2; [by vm_compute|].
    simpl in Hl. lia.
Defined.

Lemma both_mode_prompt_order_witness :
  let request := Demo.post (Demo.upload "a.pdf" Demo.pdf_magic) "fr" "both" in
  let world := Demo.collaborators [Some (lit "{}"); Some (lit "Hello")] in
  ∃ rest,
    sent_prompts (@index Z world Demo.languages request)
    = prompt_json (document_text Demo.demo_doc) (lit "fr") :: rest
    ∧ Forall (λ p, ∃ t, p = prompt_translate t (lit "fr")) rest.
Proof.
  intros request world.
  destruct (@both_mode_prompt_order Z world Demo.languages request
              (Demo.upload "a.pdf" Demo.pdf_magic) Demo.demo_doc)
    as (rest & Hsent & Hrest & _).
  - reflexivity.
  - reflexivity.
  - reflexivity.
  - by vm_compute.
  - reflexivity.
  - by exists rest.
Defined.

Lemma both_mode_upload_named_output_json_witness :
  let request :=
    Demo.post (Demo.upload "output.json" Demo.pdf_magic) "fr" "both" in
  @index Z (Demo.collaborators [Some (lit "{}")]) Demo.languages request
  = Outcome [prompt_json (document_text Demo.demo_doc) (lit "fr")]
            (inl FileDataError).
Proof.
  intros request.
  apply (@both_mode_upload_named_output_json Z
           (Demo.collaborators [Some (lit "{}")]) Demo.languages request
           (Demo.upload "output.json" Demo.pdf_magic) Demo.demo_doc
           (lit "{}") (lit "{}") (JObject [])); reflexivity.
Defined.

Lemma prompts_need_readable_upload_witness :
  let file := Demo.upload "a.pdf" Demo.pdf_magic in
  let request := Demo.post file "fr" "json" in
  let world := Demo.collaborators [] in
  method request = POST
  ∧ ∃ file doc,
      files_file request = Some file
      ∧ @secure_filename Z world (filename file) ≠ []
      ∧ @fitz_parse Z world (@secure_filename Z world (filename file))
          (Upload (stream file)) = Some doc
      ∧ (form_mode request = Some (lit "json")
         ∨ form_mode request = Some (lit "pdf")
         ∨ form_mode request = Some (lit "both")).
Proof.
  intros file request world.
  apply (@prompts_need_readable_upload Z world Demo.languages request).
  by vm_compute.
Defined.
